(** * StockMaster Pro: the request handlers of [StockBis/app.py]

    A shallow embedding of the Flask application: the two tables
    ([Product], [Sale]), the SQL statements a commit sends, and the
    request handlers as functions from a request and a store to a
    response and a store.

    Conventions of the embedding
    - Python [int] is [Z].  An INTEGER column holds the signed 64-bit
      integers ([sqlite_integer]); binding any other [int] to a statement
      raises [OverflowError].
    - Python [float] is an abstract type [F] with the operations the
      handlers use ([PyRuntime]); [Float64] instantiates it with IEEE
      binary64.  Every theorem holds for every runtime.  A REAL column
      takes NaN as NULL and gives back a negative zero as zero
      ([sql_real]).  [float * int] is total here: the [int] too large for
      a [float], on which Python raises [OverflowError], is in
      [process_sale] a quantity that the store refuses with the same
      exception.
    - The rows of a table have SQLite integers as ids; a statement that
      names a row by its id is not checked for the range of the id again.
    - A timestamp ([datetime.utcnow()]) is a number of microseconds; each
      handler that reads the clock takes the reading as its [now].
    - A handler's [try: ... except Exception] is a computation in
      [Result] whose [Raise] branch produces the flashed error and leaves
      the store as it was: statements are sent only by [commit], inside
      one transaction. *)

From Stdlib Require Import ZArith Floats Ascii.
From stdpp Require Import gmap strings list fin_maps sorting.

Local Open Scope Z_scope.

(** ** Exceptions and the error monad *)

Inductive PyExn : Set :=
  | TypeError        (* int(None), float(None) *)
  | ValueError       (* int / float of a string that is no literal *)
  | OverflowError    (* an int outside 64 bits bound to a statement *)
  | NotFound         (* get_or_404 *)
  | IntegrityError   (* NOT NULL constraint failed *)
  | AttributeError.  (* attribute of None *)

Inductive Result (A : Type) : Type :=
  | Ok (a : A)
  | Raise (e : PyExn).
Arguments Ok {A} a.
Arguments Raise {A} e.

#[global] Instance Result_ret : MRet Result := @Ok.
#[global] Instance Result_bind : MBind Result :=
  λ A B f m, match m with Ok a => f a | Raise e => Raise e end.

(** ** The Python runtime the handlers rely on *)

Class PyRuntime (F : Type) : Type := {
  (** [int(s)] on a string: [None] is [ValueError]. *)
  int_of_str : string → option Z;
  (** [float(s)] on a string: [None] is [ValueError]. *)
  float_of_str : string → option F;
  (** [float(n)], also the coercion of the [int] operand of [float * int]
      and of [0 + float]. *)
  float_of_int : Z → F;
  fadd : F → F → F;
  fsub : F → F → F;
  fmul : F → F → F;
  (** the builtin [sum] over floats *)
  py_sum : list F → F;
  (** What a REAL NOT NULL column holds once [x] is bound to it: [None]
      for NaN, which sqlite3 binds as NULL and the column refuses; the
      value as the column gives it back otherwise (0.0 for -0.0). *)
  sql_real : F → option F;
  sql_real_zero : sql_real (float_of_int 0) = Some (float_of_int 0)
}.

(** The values of an INTEGER column. *)
Definition sqlite_integer (n : Z) : Prop :=
  -9223372036854775808 ≤ n ≤ 9223372036854775807.

#[global] Instance sqlite_integer_dec : ∀ n, Decision (sqlite_integer n) :=
  λ n, decide (-9223372036854775808 ≤ n ≤ 9223372036854775807).

(** What [request.form.get(key, default)] returns. *)
Inductive PyVal : Set :=
  | PyNone
  | PyStr (s : string)
  | PyInt (n : Z).

Definition form_get (form : gmap string string) (key : string) (default : PyVal) : PyVal :=
  match form !! key with
  | Some s => PyStr s
  | None => default
  end.

(** ** The tables *)

(** A row of [product]; its primary key [id] is the key of the row in
    the table.  [name], [buying_price] and [selling_price] are NOT NULL. *)
Module Product.
Record t (F : Type) : Type := mk {
  name : string;
  stock_quantity : Z;
  buying_price : F;
  selling_price : F
}.
Arguments mk {F} _ _ _ _.
Arguments name {F} _.
Arguments stock_quantity {F} _.
Arguments buying_price {F} _.
Arguments selling_price {F} _.
End Product.

(** A row of [sale]; [product_id], [quantity_sold] and [profit_recorded]
    are NOT NULL. *)
Module Sale.
Record t (F : Type) : Type := mk {
  id : Z;
  product_id : Z;
  quantity_sold : Z;
  sale_date : Z;
  profit_recorded : F
}.
Arguments mk {F} _ _ _ _ _.
Arguments id {F} _.
Arguments product_id {F} _.
Arguments quantity_sold {F} _.
Arguments sale_date {F} _.
Arguments profit_recorded {F} _.
End Sale.

(** The database: [product] keyed by id, [sale] in rowid order. *)
Record Store (F : Type) : Type := mkStore {
  products : gmap Z (Product.t F);
  sales : list (Sale.t F)
}.
Arguments mkStore {F} _ _.
Arguments products {F} _.
Arguments sales {F} _.

(** [db.create_all()] on a fresh file. *)
Definition init_db {F : Type} : Store F := mkStore ∅ [].

(** SQLite's rowid for a new row: one more than the largest in use,
    1 in an empty table. *)
Definition next_rowid (ids : list Z) : Z :=
  match ids with
  | [] => 1
  | i :: rest => 1 + foldr Z.max i rest
  end.

(** ** What a commit sends

    The session's unit of work turns the changes made to the mapped
    objects into statements.  An attribute that may hold [None] on the
    Python side is an [option] here; the table rejects it.
    [UpdateProductStock] is the UPDATE of a product of which only
    [stock_quantity] was assigned. *)
Inductive Stmt (F : Type) : Type :=
  | InsertProduct (name : option string) (stock_quantity : Z) (buying_price selling_price : F)
  | UpdateProduct (id : Z) (name : option string) (stock_quantity : Z)
                  (buying_price selling_price : F)
  | UpdateProductStock (id : Z) (stock_quantity : Z)
  | DeleteProduct (id : Z)
  | InsertSale (product_id : option Z) (quantity_sold : Z) (profit_recorded : F)
  | UpdateSaleProduct (id : Z) (product_id : option Z).
Arguments InsertProduct {F} _ _ _ _.
Arguments UpdateProduct {F} _ _ _ _ _.
Arguments UpdateProductStock {F} _ _.
Arguments DeleteProduct {F} _.
Arguments InsertSale {F} _ _ _.
Arguments UpdateSaleProduct {F} _ _.

Definition set_sale_product {F} (sid pid : Z) (s : Sale.t F) : Sale.t F :=
  if decide (Sale.id s = sid)
  then Sale.mk (Sale.id s) pid (Sale.quantity_sold s) (Sale.sale_date s) (Sale.profit_recorded s)
  else s.

Definition with_stock {F} (stock_quantity : Z) (product : Product.t F) : Product.t F :=
  Product.mk (Product.name product) stock_quantity
             (Product.buying_price product) (Product.selling_price product).

(** The row of [product] that the bound values make.  The integer is
    bound first: out of range it raises [OverflowError], whatever the
    other values are.  Then NULL in a NOT NULL column is refused, be it a
    name that is [None] or a price that is NaN. *)
Definition product_row {F} `{!PyRuntime F} (name : option string) (stock_quantity : Z)
    (buying_price selling_price : F) : Result (Product.t F) :=
  if decide (sqlite_integer stock_quantity) then
    match name, sql_real buying_price, sql_real selling_price with
    | Some name, Some buying_price, Some selling_price =>
        Ok (Product.mk name stock_quantity buying_price selling_price)
    | _, _, _ => Raise IntegrityError
    end
  else Raise OverflowError.

(** One statement on the store; [now] is the clock reading that
    [default=datetime.utcnow] puts into [sale_date]. *)
Definition exec {F} `{!PyRuntime F} (now : Z) (st : Stmt F) (db : Store F)
  : Result (Store F) :=
  match st with
  | InsertProduct name stock bp sp =>
      row ← product_row name stock bp sp;
      let id := next_rowid (map_to_list (products db)).*1 in
      Ok (mkStore (<[id := row]> (products db)) (sales db))
  | UpdateProduct id name stock bp sp =>
      row ← product_row name stock bp sp;
      Ok (mkStore (alter (λ _, row) id (products db)) (sales db))
  | UpdateProductStock id stock =>
      if decide (sqlite_integer stock)
      then Ok (mkStore (alter (with_stock stock) id (products db)) (sales db))
      else Raise OverflowError
  | DeleteProduct id =>
      Ok (mkStore (delete id (products db)) (sales db))
  | InsertSale product_id qty profit =>
      if decide (sqlite_integer qty) then
        match product_id, sql_real profit with
        | Some pid, Some profit =>
            let id := next_rowid (Sale.id <$> sales db) in
            Ok (mkStore (products db) (sales db ++ [Sale.mk id pid qty now profit]))
        | _, _ => Raise IntegrityError
        end
      else Raise OverflowError
  | UpdateSaleProduct _ None => Raise IntegrityError
  | UpdateSaleProduct sid (Some pid) =>
      Ok (mkStore (products db) (set_sale_product sid pid <$> sales db))
  end.

(** [db.session.commit()]: the statements in order, all or nothing. *)
Fixpoint commit {F} `{!PyRuntime F} (now : Z) (stmts : list (Stmt F)) (db : Store F)
  : Result (Store F) :=
  match stmts with
  | [] => Ok db
  | st :: rest => db' ← exec now st db; commit now rest db'
  end.

(** ** Responses *)

Inductive Category : Set := success | danger.

(** The flashed messages, one constructor per f-string of the source,
    with the values it interpolates ([name] as the form gave it). *)
Inductive Message (F : Type) : Type :=
  | ProductAdded (name : option string)
  | AddFailed (e : PyExn)
  | ProductEdited (name : option string)
  | EditFailed (e : PyExn)
  | ProductDeleted (name : string)
  | DeleteFailed (e : PyExn)
  | InsufficientStock (available : Z)
  | SaleRecorded (quantity_sold : Z) (name : string) (profit : F)
  | SaleFailed (e : PyExn).
Arguments ProductAdded {F} _.
Arguments AddFailed {F} _.
Arguments ProductEdited {F} _.
Arguments EditFailed {F} _.
Arguments ProductDeleted {F} _.
Arguments DeleteFailed {F} _.
Arguments InsufficientStock {F} _.
Arguments SaleRecorded {F} _ _ _.
Arguments SaleFailed {F} _.

Inductive Json (F : Type) : Type :=
  | JInt (n : Z)
  | JFloat (x : F)
  | JStr (s : string).
Arguments JInt {F} _.
Arguments JFloat {F} _.
Arguments JStr {F} _.

Inductive Response (F : Type) : Type :=
  | Redirect (endpoint : string) (category : Category) (flash : Message F)
  | Jsonify (object : list (string * Json F))
  | Abort (status : Z).
Arguments Redirect {F} _ _ _.
Arguments Jsonify {F} _.
Arguments Abort {F} _.

(** The context [dashboard] hands to its template, but for the five
    latest sales, which are [recent_sales] below. *)
Record Dashboard (F : Type) : Type := mkDashboard {
  weekly_revenue : F;
  weekly_profit : F
}.
Arguments mkDashboard {F} _ _.
Arguments weekly_revenue {F} _.
Arguments weekly_profit {F} _.

(** [timedelta(days=n)] in microseconds. *)
Definition timedelta_days (n : Z) : Z := n * 86400 * 1000000.

Section Handlers.
Context {F : Type} `{!PyRuntime F}.

(** [int(v)] and [float(v)] on what the form gave. *)
Definition py_int (v : PyVal) : Result Z :=
  match v with
  | PyNone => Raise TypeError
  | PyStr s => match int_of_str s with Some n => Ok n | None => Raise ValueError end
  | PyInt n => Ok n
  end.

Definition py_float (v : PyVal) : Result F :=
  match v with
  | PyNone => Raise TypeError
  | PyStr s => match float_of_str s with Some x => Ok x | None => Raise ValueError end
  | PyInt n => Ok (float_of_int n)
  end.

(** What the SELECT of an id that no row has raises: the id is bound
    to the statement, which fails outside 64 bits, and the empty result
    is a 404 otherwise. *)
Definition no_row (id : Z) : PyExn :=
  if decide (sqlite_integer id) then NotFound else OverflowError.

(** [Product.query.get_or_404(id)] *)
Definition get_or_404 (db : Store F) (id : Z) : Result (Product.t F) :=
  match products db !! id with
  | Some product => Ok product
  | None => Raise (no_row id)
  end.

(** *** [/]: dashboard *)

Definition week_ago (now : Z) : Z := now - timedelta_days 7.

(** [Sale.query.filter(Sale.sale_date >= week_ago).all()] *)
Definition query_weekly_sales (now : Z) (db : Store F) : list (Sale.t F) :=
  filter (λ sale, week_ago now ≤ Sale.sale_date sale) (sales db).

(** The [for sale in weekly_sales] loop, from the running total [acc];
    [Product.query.get] gives [None] for a missing row, whose
    [selling_price] raises. *)
Fixpoint revenue_loop (db : Store F) (acc : F) (weekly_sales : list (Sale.t F)) : Result F :=
  match weekly_sales with
  | [] => Ok acc
  | sale :: rest =>
      match products db !! Sale.product_id sale with
      | None => Raise AttributeError
      | Some product =>
          revenue_loop db
            (fadd acc (fmul (Product.selling_price product)
                            (float_of_int (Sale.quantity_sold sale))))
            rest
      end
  end.

Definition dashboard (now : Z) (db : Store F) : Result (Dashboard F) :=
  let weekly_sales := query_weekly_sales now db in
  weekly_revenue ← revenue_loop db (float_of_int 0) weekly_sales;
  let weekly_profit := py_sum (Sale.profit_recorded <$> weekly_sales) in
  mret (mkDashboard weekly_revenue weekly_profit).

(** [Sale.query.order_by(Sale.sale_date.desc()).limit(5).all()], the
    third value [dashboard] hands to its template.  The query leaves the
    order of sales of the same date to the database; here it is the one
    the sort gives. *)
Definition sale_date_desc (a b : Sale.t F) : Prop :=
  Sale.sale_date b ≤ Sale.sale_date a.

#[global] Instance sale_date_desc_dec : RelDecision sale_date_desc :=
  λ a b, decide (Sale.sale_date b ≤ Sale.sale_date a).

Definition recent_sales (db : Store F) : list (Sale.t F) :=
  take 5 (merge_sort sale_date_desc (sales db)).

(** *** [/inventory] and [/sale]: the rows the templates list *)

Definition inventory (db : Store F) : list (Z * Product.t F) :=
  map_to_list (products db).

Definition sale_page (db : Store F) : list (Z * Product.t F) :=
  filter (λ row, 0 < Product.stock_quantity row.2) (map_to_list (products db)).

(** *** [/inventory/add] *)

Definition add_product_try (now : Z) (form : gmap string string) (db : Store F)
  : Result (Response F * Store F) :=
  let name := form !! "name" in
  stock_quantity ← py_int (form_get form "stock_quantity" (PyInt 0));
  buying_price ← py_float (form_get form "buying_price" (PyInt 0));
  selling_price ← py_float (form_get form "selling_price" (PyInt 0));
  db' ← commit now [InsertProduct name stock_quantity buying_price selling_price] db;
  mret (Redirect "inventory" success (ProductAdded name), db').

Definition add_product (now : Z) (form : gmap string string) (db : Store F)
  : Response F * Store F :=
  match add_product_try now form db with
  | Ok r => r
  | Raise e => (Redirect "inventory" danger (AddFailed e), db)
  end.

(** *** [/inventory/edit/<int:product_id>] *)

Definition edit_product_try (now : Z) (product_id : Z) (form : gmap string string)
    (db : Store F) : Result (Response F * Store F) :=
  product ← get_or_404 db product_id;
  let name := form !! "name" in
  stock_quantity ← py_int (form_get form "stock_quantity" (PyInt 0));
  buying_price ← py_float (form_get form "buying_price" (PyInt 0));
  selling_price ← py_float (form_get form "selling_price" (PyInt 0));
  db' ← commit now [UpdateProduct product_id name stock_quantity buying_price selling_price] db;
  mret (Redirect "inventory" success (ProductEdited name), db').

Definition edit_product (now : Z) (product_id : Z) (form : gmap string string)
    (db : Store F) : Response F * Store F :=
  match edit_product_try now product_id form db with
  | Ok r => r
  | Raise e => (Redirect "inventory" danger (EditFailed e), db)
  end.

(** *** [/inventory/delete/<int:product_id>] *)

(** [product.sales]: the relationship of line 41, the sales whose
    [product_id] is the product's id. *)
Definition product_sales (db : Store F) (product_id : Z) : list (Sale.t F) :=
  filter (λ sale, Sale.product_id sale = product_id) (sales db).

(** What the unit of work sends for [db.session.delete(product)].  The
    relationship declares no delete cascade, so each sale of the product
    first has its [product_id] set to NULL; then the product's row goes. *)
Definition delete_stmts (db : Store F) (product_id : Z) : list (Stmt F) :=
  ((λ sale, UpdateSaleProduct (Sale.id sale) None) <$> product_sales db product_id)
  ++ [DeleteProduct product_id].

Definition delete_product_try (now : Z) (product_id : Z) (db : Store F)
  : Result (Response F * Store F) :=
  product ← get_or_404 db product_id;
  let product_name := Product.name product in
  db' ← commit now (delete_stmts db product_id) db;
  mret (Redirect "inventory" success (ProductDeleted product_name), db').

Definition delete_product (now : Z) (product_id : Z) (db : Store F)
  : Response F * Store F :=
  match delete_product_try now product_id db with
  | Ok r => r
  | Raise e => (Redirect "inventory" danger (DeleteFailed e), db)
  end.

(** *** [/sale/process] *)

Definition process_sale_try (now : Z) (form : gmap string string) (db : Store F)
  : Result (Response F * Store F) :=
  product_id ← py_int (form_get form "product_id" PyNone);
  quantity_sold ← py_int (form_get form "quantity_sold" PyNone);
  product ← get_or_404 db product_id;
  if decide (Product.stock_quantity product < quantity_sold)
  then mret (Redirect "sale_page" danger
               (InsufficientStock (Product.stock_quantity product)), db)
  else
    let profit :=
      fmul (fsub (Product.selling_price product) (Product.buying_price product))
           (float_of_int quantity_sold) in
    let new_sale := InsertSale (Some product_id) quantity_sold profit in
    let stock_quantity := Product.stock_quantity product - quantity_sold in
    db' ← commit now [UpdateProductStock product_id stock_quantity; new_sale] db;
    mret (Redirect "sale_page" success
            (SaleRecorded quantity_sold (Product.name product) profit), db').

Definition process_sale (now : Z) (form : gmap string string) (db : Store F)
  : Response F * Store F :=
  match process_sale_try now form db with
  | Ok r => r
  | Raise e => (Redirect "sale_page" danger (SaleFailed e), db)
  end.

(** *** [/api/product/<int:product_id>] *)

(** No [try] here: the [NotFound] of [get_or_404] aborts the request
    with 404, any other exception is the server's error 500. *)
Definition get_product_info (product_id : Z) (db : Store F) : Response F :=
  match get_or_404 db product_id with
  | Ok product =>
      Jsonify [("id", JInt product_id);
               ("name", JStr (Product.name product));
               ("stock_quantity", JInt (Product.stock_quantity product));
               ("buying_price", JFloat (Product.buying_price product));
               ("selling_price", JFloat (Product.selling_price product))]
  | Raise NotFound => Abort 404
  | Raise _ => Abort 500
  end.

(** *** The application as a transition system *)

Inductive Request : Type :=
  | GetDashboard
  | GetInventory
  | PostAdd (form : gmap string string)
  | PostEdit (product_id : Z) (form : gmap string string)
  | PostDelete (product_id : Z)
  | GetSale
  | PostSale (form : gmap string string)
  | GetProductInfo (product_id : Z).

(** The store after a request served at clock reading [now]. *)
Definition step (now : Z) (req : Request) (db : Store F) : Store F :=
  match req with
  | PostAdd form => (add_product now form db).2
  | PostEdit product_id form => (edit_product now product_id form db).2
  | PostDelete product_id => (delete_product now product_id db).2
  | PostSale form => (process_sale now form db).2
  | GetDashboard | GetInventory | GetSale | GetProductInfo _ => db
  end.

Definition run (trace : list (Z * Request)) (db : Store F) : Store F :=
  foldl (λ db r, step r.1 r.2 db) db trace.

End Handlers.

(** ** A runtime to evaluate with: IEEE binary64

    [float] is Rocq's primitive binary64, which is what a Python [float]
    is.  A string is the UTF-8 encoding of the Python [str].  [int()] and
    [float()] first turn every decimal digit into its ASCII digit and
    every space into a blank (the tables are those of Unicode 14.0, as
    in CPython 3.11), then read the ASCII literal: for [int()] blanks
    around, a sign, digits with single underscores between them, at
    most 4300 digits; for [float()] blanks around, a sign, and either
    [inf], [infinity] or [nan] in any case, or digits, a fraction and an
    exponent with the same underscores, rounded to nearest even.  [sum]
    adds from 0, left to right. *)
Module Float64.

(** The code points of a UTF-8 string; [need] bytes of the code point
    [acc] are still to come. *)
Fixpoint code_points (need : nat) (acc : N) (s : string) : option (list N) :=
  match s with
  | EmptyString => if need is O then Some [] else None
  | String c s' =>
      let b := N_of_ascii c in
      match need with
      | O =>
          if (b <? 128)%N then cons b <$> code_points 0 0 s'
          else if (b <? 192)%N then None
          else if (b <? 224)%N then code_points 1 (b - 192) s'
          else if (b <? 240)%N then code_points 2 (b - 224) s'
          else if (b <? 248)%N then code_points 3 (b - 240) s'
          else None
      | S n =>
          if ((128 <=? b) && (b <? 192))%N then
            let acc := (acc * 64 + (b - 128))%N in
            if n is O then cons acc <$> code_points 0 0 s' else code_points n acc s'
          else None
      end
  end.

(** The digit zero of each set of decimal digits beyond ASCII. *)
Definition decimal_zeros : list N :=
  [0x660; 0x6f0; 0x7c0; 0x966; 0x9e6; 0xa66; 0xae6; 0xb66; 0xbe6; 0xc66; 0xce6;
   0xd66; 0xde6; 0xe50; 0xed0; 0xf20; 0x1040; 0x1090; 0x17e0; 0x1810; 0x1946;
   0x19d0; 0x1a80; 0x1a90; 0x1b50; 0x1bb0; 0x1c40; 0x1c50; 0xa620; 0xa8d0; 0xa900;
   0xa9d0; 0xa9f0; 0xaa50; 0xabf0; 0xff10; 0x104a0; 0x10d30; 0x11066; 0x110f0;
   0x11136; 0x111d0; 0x112f0; 0x11450; 0x114d0; 0x11650; 0x116c0; 0x11730; 0x118e0;
   0x11950; 0x11c50; 0x11d50; 0x11da0; 0x16a60; 0x16ac0; 0x16b50; 0x1d7ce; 0x1d7d8;
   0x1d7e2; 0x1d7ec; 0x1d7f6; 0x1e140; 0x1e2f0; 0x1e950; 0x1fbf0]%N.

(** The spaces beyond ASCII. *)
Definition unicode_spaces : list N :=
  [0x85; 0xa0; 0x1680; 0x2000; 0x2001; 0x2002; 0x2003; 0x2004; 0x2005; 0x2006;
   0x2007; 0x2008; 0x2009; 0x200a; 0x2028; 0x2029; 0x202f; 0x205f; 0x3000]%N.

Definition to_ascii_char (cp : N) : option ascii :=
  if (cp <? 128)%N then Some (ascii_of_N cp)
  else if existsb (N.eqb cp) unicode_spaces then Some " "%char
  else match List.find (λ zero, (zero <=? cp) && (cp <? zero + 10))%N decimal_zeros with
       | Some zero => Some (ascii_of_N (48 + (cp - zero)))
       | None => None
       end.

Definition to_ascii (s : string) : option string :=
  cps ← code_points 0 0 s;
  cs ← mapM to_ascii_char cps;
  Some (String.string_of_list_ascii cs).

Definition is_space (c : ascii) : bool :=
  let n := N_of_ascii c in
  ((9 <=? n) && (n <=? 13) || (n =? 32))%N.

Fixpoint lstrip (s : string) : string :=
  match s with
  | String c s' => if is_space c then lstrip s' else s
  | EmptyString => s
  end.

Definition strip (s : string) : string :=
  String.rev (lstrip (String.rev (lstrip s))).

Definition digit (c : ascii) : option Z :=
  let n := Z.of_N (N_of_ascii c) in
  if (48 <=? n) && (n <=? 57) then Some (n - 48) else None.

Fixpoint count_digits (s : string) : nat :=
  match s with
  | EmptyString => 0
  | String c s' => (if digit c is Some _ then 1 else 0) + count_digits s'
  end.

(** Digits, with single underscores between them. *)
Fixpoint digitpart (after_digit : bool) (acc : Z) (s : string) : option Z :=
  match s with
  | EmptyString => if after_digit then Some acc else None
  | String c s' =>
      match digit c with
      | Some d => digitpart true (10 * acc + d) s'
      | None =>
          if after_digit && bool_decide (c = "_"%char)
          then digitpart false acc s'
          else None
      end
  end.

Definition signed (body : string → option Z) (s : string) : option Z :=
  match s with
  | String "-" s' => Z.opp <$> body s'
  | String "+" s' => body s'
  | _ => body s
  end.

Definition int_literal (s : string) : option Z :=
  s ← to_ascii s;
  let s := strip s in
  if decide (4300 < count_digits s)%nat then None
  else signed (digitpart false 0) s.

Definition of_Z (n : Z) : float :=
  SF2Prim (binary_normalize prec emax n 0 false).

(** [n / d] for [0 < n], [0 < d], rounded once: a quotient of at least
    63 bits and a sticky bit, then the rounding of [binary_normalize]. *)
Definition round_ratio (n d : Z) : float :=
  let s := Z.max 0 (Z.log2 d - Z.log2 n + 64) in
  let q := (n * 2 ^ s) `div` d in
  let sticky := if decide ((n * 2 ^ s) `mod` d = 0) then 0 else 1 in
  SF2Prim (binary_normalize prec emax (2 * q + sticky) (- s - 1) false).

(** The string up to the first character satisfying [stop], that
    character if any, and the rest. *)
Fixpoint break (stop : ascii → bool) (s : string) : string * option ascii * string :=
  match s with
  | EmptyString => (EmptyString, None, EmptyString)
  | String c s' =>
      if stop c then (EmptyString, Some c, s')
      else let '(a, sep, b) := break stop s' in (String c a, sep, b)
  end.

Definition digits_or_empty (s : string) : option Z :=
  match s with
  | EmptyString => Some 0
  | _ => digitpart false 0 s
  end.

(** The value [m * 10 ^ e10] of an unsigned decimal literal. *)
Definition decimal (s : string) : option (Z * Z) :=
  let '(mant, e, expo) := break (λ c, bool_decide (c = "e"%char) || bool_decide (c = "E"%char)) s in
  let '(ip, dot, fp) := break (λ c, bool_decide (c = "."%char)) mant in
  if bool_decide (ip = EmptyString) && bool_decide (fp = EmptyString) then None else
  i ← digits_or_empty ip;
  f ← digits_or_empty fp;
  x ← match e with
      | None => Some 0
      | Some _ => signed (digitpart false 0) expo
      end;
  let k := Z.of_nat (count_digits fp) in
  Some (i * 10 ^ k + f, x - k).

Definition lower (c : ascii) : ascii :=
  let n := N_of_ascii c in
  if ((65 <=? n) && (n <=? 90))%N then ascii_of_N (n + 32) else c.

Fixpoint lowercase (s : string) : string :=
  match s with
  | EmptyString => EmptyString
  | String c s' => String (lower c) (lowercase s')
  end.

Definition float_magnitude (s : string) : option float :=
  let word := lowercase s in
  if bool_decide (word = "inf") || bool_decide (word = "infinity") then Some infinity
  else if bool_decide (word = "nan") then Some nan
  else
    '(m, e10) ← decimal s;
    Some (if decide (m = 0) then of_Z 0
          else if decide (0 ≤ e10) then round_ratio (m * 10 ^ e10) 1
          else round_ratio m (10 ^ (- e10))).

Definition float_literal (s : string) : option float :=
  s ← to_ascii s;
  match strip s with
  | String "-" s' => PrimFloat.opp <$> float_magnitude s'
  | String "+" s' => float_magnitude s'
  | s' => float_magnitude s'
  end.

(** A REAL NOT NULL column: NaN is bound as NULL, and a zero comes back
    as 0.0 whatever its sign. *)
Definition real_column (x : float) : option float :=
  if PrimFloat.is_nan x then None
  else if PrimFloat.eqb x 0 then Some 0%float
  else Some x.

#[export] Instance runtime : PyRuntime float := {|
  int_of_str := int_literal;
  float_of_str := float_literal;
  float_of_int := of_Z;
  fadd := PrimFloat.add;
  fsub := PrimFloat.sub;
  fmul := PrimFloat.mul;
  py_sum := λ xs, foldl PrimFloat.add (of_Z 0) xs;
  sql_real := real_column;
  sql_real_zero := eq_refl
|}.

End Float64.


(** * Vocabulary of the specification *)

Section Vocabulary.
Context {F : Type} `{!PyRuntime F}.
Implicit Types (db : Store F) (form : gmap string string) (now : Z).
Implicit Types (product : Product.t F) (sale : Sale.t F).

(** The product of a sale, with [quantity_sold] units taken from its
    stock. *)
Definition sold (product : Product.t F) (quantity_sold : Z) : Product.t F :=
  Product.mk (Product.name product)
             (Product.stock_quantity product - quantity_sold)
             (Product.buying_price product) (Product.selling_price product).

Definition sale_profit (product : Product.t F) (quantity_sold : Z) : F :=
  fmul (fsub (Product.selling_price product) (Product.buying_price product))
       (float_of_int quantity_sold).

(** The store after a sale of [quantity_sold] units of [product] at
    [now], recorded with the profit [profit_recorded]. *)
Definition after_sale now db (product_id : Z) product (quantity_sold : Z)
    (profit_recorded : F) : Store F :=
  mkStore (<[product_id := sold product quantity_sold]> (products db))
          (sales db ++ [Sale.mk (next_rowid (Sale.id <$> sales db)) product_id
                                quantity_sold now profit_recorded]).

(** The store can hold a sale of [quantity_sold] units of [product]: the
    quantity and the stock that is left are SQLite integers, and the
    profit is a number, which the column holds as [profit_recorded]. *)
Definition sale_storable product (quantity_sold : Z) (profit_recorded : F) : Prop :=
  sqlite_integer (Product.stock_quantity product - quantity_sold) ∧
  sqlite_integer quantity_sold ∧
  sql_real (sale_profit product quantity_sold) = Some profit_recorded.

(** The store can hold a product row with these values, the prices as
    [buying_price'] and [selling_price']. *)
Definition row_storable (stock_quantity : Z) (buying_price selling_price : F)
    (buying_price' selling_price' : F) : Prop :=
  sqlite_integer stock_quantity ∧
  sql_real buying_price = Some buying_price' ∧
  sql_real selling_price = Some selling_price'.

(** The failing invocations of [/sale/process]: a form field missing,
    a form field that is no integer, a product id with no product, a
    quantity above the stock. *)
Inductive sale_failure form db : Prop :=
  | field_missing (key : string) :
      key ∈ ["product_id"; "quantity_sold"] → form !! key = None →
      sale_failure form db
  | field_not_numeric (key s : string) :
      key ∈ ["product_id"; "quantity_sold"] →
      form !! key = Some s → int_of_str s = None →
      sale_failure form db
  | product_not_found (s : string) (product_id : Z) :
      form !! "product_id" = Some s → int_of_str s = Some product_id →
      products db !! product_id = None →
      sale_failure form db
  | stock_insufficient (spid sqty : string) (product_id quantity_sold : Z) product :
      form !! "product_id" = Some spid → int_of_str spid = Some product_id →
      form !! "quantity_sold" = Some sqty → int_of_str sqty = Some quantity_sold →
      products db !! product_id = Some product →
      Product.stock_quantity product < quantity_sold →
      sale_failure form db.

(** [db'] is [db] with both effects of one sale: the stock of one
    product decremented and one [Sale] of that quantity appended. *)
Definition sale_applied db db' : Prop :=
  ∃ product_id product quantity_sold sale,
    products db !! product_id = Some product ∧
    products db' = <[product_id := sold product quantity_sold]> (products db) ∧
    sales db' = sales db ++ [sale] ∧
    Sale.product_id sale = product_id ∧
    Sale.quantity_sold sale = quantity_sold.

(** The selling price the store holds, at the time of asking, for the
    product of [sale] (0.0 if the product is gone). *)
Definition current_price db sale : F :=
  from_option Product.selling_price (float_of_int 0) (products db !! Sale.product_id sale).

(** [0 + price * quantity + ...] over [l], at the store's prices. *)
Definition revenue db (l : list (Sale.t F)) : F :=
  foldl (λ acc sale,
           fadd acc (fmul (current_price db sale) (float_of_int (Sale.quantity_sold sale))))
        (float_of_int 0) l.

(** The sum of the profits recorded in [l]. *)
Definition profit (l : list (Sale.t F)) : F :=
  py_sum (Sale.profit_recorded <$> l).

(** The sales of the half-open trailing window [now - 7 days, now). *)
Definition trailing_week now db : list (Sale.t F) :=
  filter (λ sale, now - timedelta_days 7 ≤ Sale.sale_date sale ∧ Sale.sale_date sale < now)
         (sales db).

(** The sales dated [now - 7 days] or later. *)
Definition since_week_ago now db : list (Sale.t F) :=
  filter (λ sale, now - timedelta_days 7 ≤ Sale.sale_date sale) (sales db).

(** Every sale of [l] has its product in the store. *)
Definition products_exist db (l : list (Sale.t F)) : Prop :=
  ∀ sale, sale ∈ l → is_Some (products db !! Sale.product_id sale).

(** A numeric form field holds [n]: the field is an integer literal of
    value [n], or it is absent and [n] is 0. *)
Definition int_field form (key : string) (n : Z) : Prop :=
  match form !! key with
  | Some s => int_of_str s = Some n
  | None => n = 0
  end.

Definition float_field form (key : string) (x : F) : Prop :=
  match form !! key with
  | Some s => float_of_str s = Some x
  | None => x = float_of_int 0
  end.


(** The units of a product that its sales record. *)
Definition units_sold db (product_id : Z) : Z :=
  foldr (λ sale total, Sale.quantity_sold sale + total) 0 (product_sales db product_id).

(** The first exception that the form of [/inventory/add] or
    [/inventory/edit] runs into: the numeric fields are converted in the
    order [stock_quantity], [buying_price], [selling_price]; then the
    row is committed, where a stock outside 64 bits fails to be bound,
    and otherwise a row without a name or with a NaN price is refused by
    the table. *)
Inductive catalogue_form_error form : PyExn → Prop :=
  | stock_not_numeric (s : string) :
      form !! "stock_quantity" = Some s → int_of_str s = None →
      catalogue_form_error form ValueError
  | buying_not_numeric (n : Z) (s : string) :
      int_field form "stock_quantity" n →
      form !! "buying_price" = Some s → float_of_str s = None →
      catalogue_form_error form ValueError
  | selling_not_numeric (n : Z) (x : F) (s : string) :
      int_field form "stock_quantity" n →
      float_field form "buying_price" x →
      form !! "selling_price" = Some s → float_of_str s = None →
      catalogue_form_error form ValueError
  | stock_out_of_range (n : Z) (x y : F) :
      int_field form "stock_quantity" n →
      float_field form "buying_price" x →
      float_field form "selling_price" y →
      ¬ sqlite_integer n →
      catalogue_form_error form OverflowError
  | null_in_row (n : Z) (x y : F) :
      int_field form "stock_quantity" n →
      float_field form "buying_price" x →
      float_field form "selling_price" y →
      sqlite_integer n →
      form !! "name" = None ∨ sql_real x = None ∨ sql_real y = None →
      catalogue_form_error form IntegrityError.

(** The JSON object of a product row. *)
Definition product_json (product_id : Z) product : list (string * Json F) :=
  [("id", JInt product_id);
   ("name", JStr (Product.name product));
   ("stock_quantity", JInt (Product.stock_quantity product));
   ("buying_price", JFloat (Product.buying_price product));
   ("selling_price", JFloat (Product.selling_price product))].

End Vocabulary.

(** * Stores and requests to evaluate on *)

Module Example.
Import Float64.

Definition stylo : Product.t float := Product.mk "stylo" 10 2%float 3.5%float.
Definition cahier : Product.t float := Product.mk "cahier" 0 1%float 1.5%float.

Definition db0 : Store float := mkStore {[ 1 := stylo; 2 := cahier ]} [].

Definition sale_form (product_id quantity_sold : string) : gmap string string :=
  {[ "product_id" := product_id; "quantity_sold" := quantity_sold ]}.

(** A clock reading, and the store after four [stylo] were sold at it. *)
Definition t0 : Z := 1793700000000000.
Definition db1 : Store float := (process_sale t0 (sale_form "1" "4") db0).2.

(** A form of [/inventory/edit] that raises the selling price of
    [stylo] to 5.0, and forms with numeric fields left out. *)
Definition edit_form : gmap string string :=
  {[ "name" := "stylo"; "stock_quantity" := "6"; "buying_price" := "2"; "selling_price" := "5.0" ]}.
Definition name_only : gmap string string := {[ "name" := "gomme" ]}.


(** A form of [/inventory/add] with every field, one whose price is no
    number, and the store after the first is added to [db1]. *)
Definition add_form : gmap string string :=
  {[ "name" := "regle"; "stock_quantity" := "3"; "buying_price" := "0.5";
     "selling_price" := "1.25" ]}.
Definition bad_price_form : gmap string string :=
  {[ "name" := "regle"; "stock_quantity" := "3"; "buying_price" := "0,5";
     "selling_price" := "1.25" ]}.
Definition regle : Product.t float := Product.mk "regle" 3 0.5%float 1.25%float.

(** [stylo] added to an empty database, then two sales of it, a second
    apart. *)
Definition stylo_form : gmap string string :=
  {[ "name" := "stylo"; "stock_quantity" := "10"; "buying_price" := "2";
     "selling_price" := "3.5" ]}.
Definition two_sales : list (Z * Request) :=
  [(t0 - 1000000, PostAdd stylo_form);
   (t0, PostSale (sale_form "1" "4"));
   (t0 + 1000000, PostSale (sale_form "1" "2"))].

End Example.

(** * Properties *)

Section Properties.
Context {F : Type} `{!PyRuntime F}.
Implicit Types (db : Store F) (form : gmap string string) (now : Z).
Implicit Types (product : Product.t F) (sale : Sale.t F).

(** ** The tables under a commit *)

Lemma alter_existing {A} (m : gmap Z A) (i : Z) (x y : A) :
  m !! i = Some y → alter (λ _, x) i m = <[i := x]> m.
Proof.
  intros Hi. apply map_eq. intros j.
  rewrite lookup_alter, lookup_insert.
  case_decide; subst; [by rewrite Hi|done].
Qed.

Lemma foldr_max_ge (i : Z) (l : list Z) :
  i ≤ foldr Z.max i l ∧ ∀ j, j ∈ l → j ≤ foldr Z.max i l.
Proof.
  induction l as [|k l [IH1 IH2]]; simpl.
  - split; [lia|]. intros j Hj. by apply elem_of_nil in Hj.
  - split; [lia|]. intros j [->|Hj]%elem_of_cons; [lia|].
    specialize (IH2 j Hj). lia.
Qed.

(** The new rowid is above every rowid in use. *)
Lemma next_rowid_fresh (ids : list Z) (j : Z) : j ∈ ids → j < next_rowid ids.
Proof.
  destruct ids as [|i l]; [by intros ?%elem_of_nil|].
  unfold next_rowid. destruct (foldr_max_ge i l) as [H1 H2].
  intros [->|Hj]%elem_of_cons; [lia|]. specialize (H2 j Hj). lia.
Qed.

Lemma next_product_id_free db :
  products db !! next_rowid (map_to_list (products db)).*1 = None.
Proof.
  destruct (products db !! _) as [product|] eqn:E; [|done].
  apply elem_of_map_to_list in E.
  assert (Hin : next_rowid (map_to_list (products db)).*1 ∈ (map_to_list (products db)).*1).
  { apply list_elem_of_fmap. by eexists (_, product). }
  apply next_rowid_fresh in Hin. lia.
Qed.

Lemma alter_at {A} (f : A → A) (m : gmap Z A) (i : Z) (y : A) :
  m !! i = Some y → alter f i m = <[i := f y]> m.
Proof.
  intros Hi. apply map_eq. intros j.
  rewrite lookup_alter, lookup_insert.
  case_decide; subst; [by rewrite Hi|done].
Qed.

(** ** [process_sale] *)

(** The handler on a request whose two fields are integers and whose
    product exists: the check of the stock, then the UPDATE of the
    stock, then the INSERT of the sale. *)
Lemma process_sale_parsed now form db spid sqty product_id quantity_sold product :
  form !! "product_id" = Some spid → int_of_str spid = Some product_id →
  form !! "quantity_sold" = Some sqty → int_of_str sqty = Some quantity_sold →
  products db !! product_id = Some product →
  process_sale now form db =
    if decide (Product.stock_quantity product < quantity_sold)
    then (Redirect "sale_page" danger (InsufficientStock (Product.stock_quantity product)), db)
    else if decide (sqlite_integer (Product.stock_quantity product - quantity_sold)
                    ∧ sqlite_integer quantity_sold)
    then match sql_real (sale_profit product quantity_sold) with
         | Some profit_recorded =>
             (Redirect "sale_page" success
                (SaleRecorded quantity_sold (Product.name product)
                              (sale_profit product quantity_sold)),
              after_sale now db product_id product quantity_sold profit_recorded)
         | None => (Redirect "sale_page" danger (SaleFailed IntegrityError), db)
         end
    else (Redirect "sale_page" danger (SaleFailed OverflowError), db).
Proof.
  intros Hp Hpi Hq Hqi Hprod.
  unfold process_sale, process_sale_try, form_get, get_or_404.
  rewrite Hp, Hq. cbn. rewrite Hpi, Hqi. cbn. rewrite Hprod. cbn.
  case_decide; [done|]. cbn.
  destruct (decide (sqlite_integer (Product.stock_quantity product - quantity_sold)))
    as [Hstock|Hstock]; cbn; [|by rewrite decide_False by tauto].
  destruct (decide (sqlite_integer quantity_sold)) as [Hqty|Hqty]; cbn;
    [|by rewrite decide_False by tauto].
  rewrite decide_True by done. fold (sale_profit product quantity_sold).
  destruct (sql_real (sale_profit product quantity_sold)); [|done]. cbn.
  unfold after_sale. by rewrite (alter_at _ _ _ product).
Qed.

(** A sale that the stock allows and the store can hold goes through. *)
Lemma process_sale_stored now form db spid sqty product_id quantity_sold product
    profit_recorded :
  form !! "product_id" = Some spid → int_of_str spid = Some product_id →
  form !! "quantity_sold" = Some sqty → int_of_str sqty = Some quantity_sold →
  products db !! product_id = Some product →
  quantity_sold ≤ Product.stock_quantity product →
  sale_storable product quantity_sold profit_recorded →
  process_sale now form db =
    (Redirect "sale_page" success
       (SaleRecorded quantity_sold (Product.name product)
                     (sale_profit product quantity_sold)),
     after_sale now db product_id product quantity_sold profit_recorded).
Proof.
  intros Hp Hpi Hq Hqi Hprod Hle (Hstock & Hqty & Hprofit).
  rewrite (process_sale_parsed _ _ _ _ _ _ _ _ Hp Hpi Hq Hqi Hprod).
  rewrite decide_False by lia. rewrite decide_True by done. by rewrite Hprofit.
Qed.

(** The requests that raise, in the order the handler meets them. *)
Lemma process_sale_raises now form db :
  match form !! "product_id" with
  | None => process_sale now form db = (Redirect "sale_page" danger (SaleFailed TypeError), db)
  | Some spid =>
      match int_of_str spid with
      | None => process_sale now form db = (Redirect "sale_page" danger (SaleFailed ValueError), db)
      | Some product_id =>
          match form !! "quantity_sold" with
          | None =>
              process_sale now form db = (Redirect "sale_page" danger (SaleFailed TypeError), db)
          | Some sqty =>
              match int_of_str sqty with
              | None =>
                  process_sale now form db
                  = (Redirect "sale_page" danger (SaleFailed ValueError), db)
              | Some quantity_sold =>
                  products db !! product_id = None →
                  process_sale now form db
                  = (Redirect "sale_page" danger (SaleFailed (no_row product_id)), db)
              end
          end
      end
  end.
Proof.
  unfold process_sale, process_sale_try, form_get, get_or_404.
  destruct (form !! "product_id") as [spid|]; [|done]. cbn.
  destruct (int_of_str spid) as [product_id|]; [|done]. cbn.
  destruct (form !! "quantity_sold") as [sqty|]; [|done]. cbn.
  destruct (int_of_str sqty) as [quantity_sold|]; [|done]. cbn.
  by intros ->.
Qed.

(** Every request either leaves the store as it was, or is a sale of
    [quantity_sold ≤ stock] units of an existing product that the store
    can hold. *)
Lemma process_sale_cases now form db :
  (process_sale now form db).2 = db ∨
  ∃ product_id product quantity_sold profit_recorded,
    products db !! product_id = Some product ∧
    quantity_sold ≤ Product.stock_quantity product ∧
    sale_storable product quantity_sold profit_recorded ∧
    (process_sale now form db).2
    = after_sale now db product_id product quantity_sold profit_recorded.
Proof.
  pose proof (process_sale_raises now form db) as Hr.
  destruct (form !! "product_id") as [spid|] eqn:Hp; [|left; by rewrite Hr].
  destruct (int_of_str spid) as [product_id|] eqn:Hpi; [|left; by rewrite Hr].
  destruct (form !! "quantity_sold") as [sqty|] eqn:Hq; [|left; by rewrite Hr].
  destruct (int_of_str sqty) as [quantity_sold|] eqn:Hqi; [|left; by rewrite Hr].
  destruct (products db !! product_id) as [product|] eqn:Hprod; [|left; by rewrite Hr].
  rewrite (process_sale_parsed _ _ _ _ _ _ _ _ Hp Hpi Hq Hqi Hprod).
  case_decide; [by left|]. case_decide as Hint; [|by left].
  destruct (sql_real (sale_profit product quantity_sold)) as [profit_recorded|] eqn:Hprofit;
    [|by left].
  right. exists product_id, product, quantity_sold, profit_recorded.
  split_and!; [done|lia|by destruct Hint as [? ?]|done].
Qed.


(** The store is as it was and the response is a flash, whose message
    the goal's remaining clause relates to the request. *)
Local Ltac flash_unchanged :=
  split; [done|]; eexists; split; [done|]; intros; by simplify_eq.

(** C2.  A failing invocation (a field missing or not numeric, no such
    product, a quantity above the stock) changes nothing in the store
    and flashes a message, which in the insufficient-stock case carries
    the available quantity; and no invocation applies the decrement
    without the insert or the insert without the decrement. *)
Theorem process_sale_failure_atomic now form db :
  (sale_failure form db →
   (process_sale now form db).2 = db ∧
   ∃ message,
     (process_sale now form db).1 = Redirect "sale_page" danger message ∧
     ∀ spid sqty product_id quantity_sold product,
       form !! "product_id" = Some spid → int_of_str spid = Some product_id →
       form !! "quantity_sold" = Some sqty → int_of_str sqty = Some quantity_sold →
       products db !! product_id = Some product →
       Product.stock_quantity product < quantity_sold →
       message = InsufficientStock (Product.stock_quantity product)) ∧
  ((process_sale now form db).2 = db ∨ sale_applied db (process_sale now form db).2).
Proof.
  split.
  - intros Hfail.
    pose proof (process_sale_raises now form db) as Hr.
    destruct (form !! "product_id") as [spid|] eqn:Hp; [|rewrite Hr; flash_unchanged].
    destruct (int_of_str spid) as [product_id|] eqn:Hpi; [|rewrite Hr; flash_unchanged].
    destruct (form !! "quantity_sold") as [sqty|] eqn:Hq; [|rewrite Hr; flash_unchanged].
    destruct (int_of_str sqty) as [quantity_sold|] eqn:Hqi; [|rewrite Hr; flash_unchanged].
    destruct (products db !! product_id) as [product|] eqn:Hprod;
      [|rewrite Hr by done; flash_unchanged].
    rewrite (process_sale_parsed _ _ _ _ _ _ _ _ Hp Hpi Hq Hqi Hprod).
    assert (Hlt : Product.stock_quantity product < quantity_sold).
    { destruct Hfail as [key Hkey Hnone|key s Hkey Hs Hnum|s pid Hs Hpid Hnone
                        |spid' sqty' pid q product' Hp' Hpi' Hq' Hqi' Hprod' Hlt].
      - apply elem_of_cons in Hkey as [->|Hkey]; [congruence|].
        apply list_elem_of_singleton in Hkey as ->. congruence.
      - apply elem_of_cons in Hkey as [->|Hkey]; [congruence|].
        apply list_elem_of_singleton in Hkey as ->. congruence.
      - congruence.
      - by simplify_eq. }
    rewrite decide_True by done. cbn. flash_unchanged.
  - destruct (process_sale_cases now form db) as [Hsame|(pid & product & q & x & Hprod & Hle & _ & ->)];
      [by left|right].
    exists pid, product, q. eexists. by split_and!.
Qed.

(** C3.  A sale request, accepted or rejected, leaves no product that
    had a non-negative stock with a negative one. *)
Theorem process_sale_stock_nonneg now form db product_id product :
  products db !! product_id = Some product →
  0 ≤ Product.stock_quantity product →
  ∃ product',
    products (process_sale now form db).2 !! product_id = Some product' ∧
    0 ≤ Product.stock_quantity product'.
Proof.
  intros Hprod Hnn.
  destruct (process_sale_cases now form db) as [->|(pid & p & q & x & Hp & Hle & _ & ->)].
  - by exists product.
  - cbn. destruct (decide (pid = product_id)) as [->|Hne].
    + rewrite lookup_insert_eq. eexists. split; [done|]. simplify_eq. cbn. lia.
    + rewrite lookup_insert_ne by done. by exists product.
Qed.

(** C7, as the code has it.  The handler checks the quantity against
    the stock and not against zero: every [Sale] that a request adds has
    a [quantity_sold] at most the stock its product had, and a request
    for more than the stock adds none. *)
Theorem process_sale_quantity_bound now form db :
  (∃ new, sales (process_sale now form db).2 = sales db ++ new ∧
     ∀ sale, sale ∈ new →
       ∃ product, products db !! Sale.product_id sale = Some product ∧
                  Sale.quantity_sold sale ≤ Product.stock_quantity product) ∧
  (∀ spid sqty product_id quantity_sold product,
     form !! "product_id" = Some spid → int_of_str spid = Some product_id →
     form !! "quantity_sold" = Some sqty → int_of_str sqty = Some quantity_sold →
     products db !! product_id = Some product →
     Product.stock_quantity product < quantity_sold →
     (process_sale now form db).2 = db).
Proof.
  split.
  - destruct (process_sale_cases now form db) as [->|(pid & p & q & x & Hp & Hle & _ & ->)].
    + exists []. split; [by rewrite app_nil_r|]. by intros sale ?%elem_of_nil.
    + eexists [_]. split; [done|].
      intros sale ->%list_elem_of_singleton. cbn. by exists p.
  - intros spid sqty product_id quantity_sold product Hp Hpi Hq Hqi Hprod Hlt.
    rewrite (process_sale_parsed _ _ _ _ _ _ _ _ Hp Hpi Hq Hqi Hprod).
    by rewrite decide_True.
Qed.

(** ** The catalogue handlers *)

Lemma product_row_ok name stock_quantity buying_price selling_price
    buying_price' selling_price' :
  row_storable stock_quantity buying_price selling_price buying_price' selling_price' →
  product_row (Some name) stock_quantity buying_price selling_price
  = Ok (Product.mk name stock_quantity buying_price' selling_price').
Proof.
  intros (Hstock & Hbp & Hsp). unfold product_row.
  rewrite decide_True by done. by rewrite Hbp, Hsp.
Qed.

Lemma add_product_ok now form db name stock_quantity buying_price selling_price
    buying_price' selling_price' :
  form !! "name" = Some name →
  py_int (form_get form "stock_quantity" (PyInt 0)) = Ok stock_quantity →
  py_float (form_get form "buying_price" (PyInt 0)) = Ok buying_price →
  py_float (form_get form "selling_price" (PyInt 0)) = Ok selling_price →
  row_storable stock_quantity buying_price selling_price buying_price' selling_price' →
  add_product now form db =
    (Redirect "inventory" success (ProductAdded (Some name)),
     mkStore (<[next_rowid (map_to_list (products db)).*1 :=
                  Product.mk name stock_quantity buying_price' selling_price']> (products db))
             (sales db)).
Proof.
  intros Hname Hstock Hbp Hsp Hrow. unfold add_product, add_product_try.
  rewrite Hstock, Hbp, Hsp, Hname. cbn -[product_row].
  by rewrite (product_row_ok _ _ _ _ _ _ Hrow).
Qed.

Lemma add_product_sales now form db :
  sales (add_product now form db).2 = sales db.
Proof.
  unfold add_product, add_product_try.
  destruct (py_int _); [|done]. cbn -[product_row].
  destruct (py_float (form_get form "buying_price" _)); [|done]. cbn -[product_row].
  destruct (py_float _); [|done]. cbn -[product_row].
  by destruct (product_row _ _ _ _).
Qed.

Lemma edit_product_ok now product_id form db product name stock_quantity
    buying_price selling_price buying_price' selling_price' :
  products db !! product_id = Some product →
  form !! "name" = Some name →
  py_int (form_get form "stock_quantity" (PyInt 0)) = Ok stock_quantity →
  py_float (form_get form "buying_price" (PyInt 0)) = Ok buying_price →
  py_float (form_get form "selling_price" (PyInt 0)) = Ok selling_price →
  row_storable stock_quantity buying_price selling_price buying_price' selling_price' →
  edit_product now product_id form db =
    (Redirect "inventory" success (ProductEdited (Some name)),
     mkStore (<[product_id := Product.mk name stock_quantity buying_price' selling_price']>
                (products db))
             (sales db)).
Proof.
  intros Hprod Hname Hstock Hbp Hsp Hrow. unfold edit_product, edit_product_try, get_or_404.
  rewrite Hprod. cbn. rewrite Hstock, Hbp, Hsp, Hname. cbn -[product_row].
  rewrite (product_row_ok _ _ _ _ _ _ Hrow). cbn.
  by rewrite (alter_existing _ _ _ product).
Qed.

Lemma edit_product_sales now product_id form db :
  sales (edit_product now product_id form db).2 = sales db.
Proof.
  unfold edit_product, edit_product_try, get_or_404.
  destruct (products db !! product_id); [|done]. cbn -[product_row].
  destruct (py_int _); [|done]. cbn -[product_row].
  destruct (py_float (form_get form "buying_price" _)); [|done]. cbn -[product_row].
  destruct (py_float _); [|done]. cbn -[product_row].
  by destruct (product_row _ _ _ _).
Qed.

(** Setting the [product_id] of a sale to NULL is refused, so the
    statements of a delete go through only when the product has no
    sale. *)
Lemma commit_delete_stmts now db product_id :
  commit now (delete_stmts db product_id) db =
    match product_sales db product_id with
    | [] => Ok (mkStore (delete product_id (products db)) (sales db))
    | _ :: _ => Raise IntegrityError
    end.
Proof. unfold delete_stmts. by destruct (product_sales db product_id). Qed.

Lemma delete_product_found now product_id db product :
  products db !! product_id = Some product →
  delete_product now product_id db =
    match product_sales db product_id with
    | [] => (Redirect "inventory" success (ProductDeleted (Product.name product)),
             mkStore (delete product_id (products db)) (sales db))
    | _ :: _ => (Redirect "inventory" danger (DeleteFailed IntegrityError), db)
    end.
Proof.
  intros Hprod. unfold delete_product, delete_product_try, get_or_404.
  rewrite Hprod. cbn. rewrite commit_delete_stmts.
  by destruct (product_sales db product_id).
Qed.

Lemma delete_product_not_found now product_id db :
  products db !! product_id = None →
  delete_product now product_id db
  = (Redirect "inventory" danger (DeleteFailed (no_row product_id)), db).
Proof.
  intros Hprod. unfold delete_product, delete_product_try, get_or_404. by rewrite Hprod.
Qed.

Lemma delete_product_sales now product_id db :
  sales (delete_product now product_id db).2 = sales db.
Proof.
  destruct (products db !! product_id) as [product|] eqn:Hprod.
  - rewrite (delete_product_found _ _ _ _ Hprod). by destruct (product_sales db product_id).
  - by rewrite delete_product_not_found.
Qed.

(** ** The sale table along a run *)

Lemma step_sales_prefix now req db : sales db `prefix_of` sales (step now req db).
Proof.
  destruct req; cbn; try done.
  - by rewrite add_product_sales.
  - by rewrite edit_product_sales.
  - by rewrite delete_product_sales.
  - destruct (process_sale_cases now form db) as [->|(pid & p & q & x & _ & _ & _ & ->)]; [done|].
    cbn. by apply prefix_app_r.
Qed.

Lemma run_sales_prefix trace db : sales db `prefix_of` sales (run trace db).
Proof.
  revert db. induction trace as [|[now req] trace IH]; intros db; [done|].
  cbn. etrans; [apply (step_sales_prefix now req)|apply IH].
Qed.

(** C4.  Editing a product leaves the sale table as it was, and no
    sequence of requests of any kind changes a sale that exists: it stays
    the row it was, [profit_recorded] included. *)
Theorem profit_recorded_frozen :
  (∀ now product_id form db,
     sales (edit_product now product_id form db).2 = sales db) ∧
  (∀ trace db i sale,
     sales db !! i = Some sale →
     sales (run trace db) !! i = Some sale ∧
     ∀ sale', sales (run trace db) !! i = Some sale' →
              Sale.profit_recorded sale' = Sale.profit_recorded sale).
Proof.
  split; [apply edit_product_sales|].
  intros trace db i sale Hi.
  assert (Hi' : sales (run trace db) !! i = Some sale).
  { by eapply prefix_lookup_Some, run_sales_prefix. }
  split; [done|]. intros sale' Hs. congruence.
Qed.

(** ** [dashboard] *)

(** The loop either meets a sale whose product is gone and raises, or
    adds up [price * quantity] at the store's prices. *)
Lemma revenue_loop_spec db (l : list (Sale.t F)) (acc : F) :
  (products_exist db l ∧
   revenue_loop db acc l =
     Ok (foldl (λ acc sale,
                  fadd acc (fmul (current_price db sale)
                                 (float_of_int (Sale.quantity_sold sale)))) acc l)) ∨
  (¬ products_exist db l ∧ revenue_loop db acc l = Raise AttributeError).
Proof.
  revert acc. induction l as [|sale l IH]; intros acc.
  - left. split; [by intros sale ?%elem_of_nil|done].
  - cbn.
    destruct (products db !! Sale.product_id sale) as [product|] eqn:Hprod.
    + assert (Hprice : current_price db sale = Product.selling_price product).
      { unfold current_price. by rewrite Hprod. }
      rewrite Hprice.
      destruct (IH (fadd acc (fmul (Product.selling_price product)
                                   (float_of_int (Sale.quantity_sold sale)))))
        as [[Hall ->]|[Hnot ->]].
      * left. split; [|done].
        intros sale' [->|Hin]%elem_of_cons; [by rewrite Hprod|by apply Hall].
      * right. split; [|done]. intros Hall. apply Hnot.
        intros sale' Hin. apply Hall. by right.
    + right. split; [|done]. intros Hall.
      destruct (Hall sale) as [product Hsome]; [by left|congruence].
Qed.

Lemma dashboard_spec now db :
  (products_exist db (since_week_ago now db) ∧
   dashboard now db = Ok (mkDashboard (revenue db (since_week_ago now db))
                                      (profit (since_week_ago now db)))) ∨
  (¬ products_exist db (since_week_ago now db) ∧ dashboard now db = Raise AttributeError).
Proof.
  unfold dashboard, query_weekly_sales, week_ago.
  destruct (revenue_loop_spec db (since_week_ago now db) (float_of_int 0))
    as [[Hall Hloop]|[Hnot Hloop]]; unfold since_week_ago in *; rewrite Hloop.
  - by left.
  - by right.
Qed.

(** C5, as the code has it.  The weekly figures are taken over exactly
    the sales dated [now - 7 days] or later, with no upper bound: the
    profit is the sum of their [profit_recorded], the revenue the sum of
    selling price times [quantity_sold], and no sale dated before
    [now - 7 days] contributes.  The dashboard is served whenever the
    product of each of these sales exists. *)
Theorem dashboard_weekly_figures now db :
  products_exist db (since_week_ago now db) →
  dashboard now db = Ok (mkDashboard (revenue db (since_week_ago now db))
                                     (profit (since_week_ago now db))) ∧
  (∀ sale, sale ∈ since_week_ago now db ↔
           sale ∈ sales db ∧ now - 7 * 86400 * 1000000 ≤ Sale.sale_date sale) ∧
  revenue db (since_week_ago now db) =
    foldl (λ acc sale,
             fadd acc (fmul (current_price db sale) (float_of_int (Sale.quantity_sold sale))))
          (float_of_int 0) (since_week_ago now db) ∧
  (∀ sale, sale ∈ since_week_ago now db →
     ∃ product, products db !! Sale.product_id sale = Some product ∧
                current_price db sale = Product.selling_price product) ∧
  profit (since_week_ago now db) = py_sum (Sale.profit_recorded <$> since_week_ago now db).
Proof.
  intros Hall. split_and!; try done.
  - by destruct (dashboard_spec now db) as [[_ ->]|[Hnot _]].
  - intros sale. unfold since_week_ago. rewrite list_elem_of_filter.
    unfold timedelta_days. tauto.
  - intros sale [product Hprod]%Hall. exists product. split; [done|].
    unfold current_price. by rewrite Hprod.
Qed.

(** ** Form fields with a default *)

Lemma int_field_py_int form key n :
  int_field form key n → py_int (form_get form key (PyInt 0)) = Ok n.
Proof.
  unfold int_field, form_get. destruct (form !! key) as [s|]; cbn.
  - by intros ->.
  - by intros ->.
Qed.

Lemma float_field_py_float form key x :
  float_field form key x → py_float (form_get form key (PyInt 0)) = Ok x.
Proof.
  unfold float_field, form_get. destruct (form !! key) as [s|]; cbn.
  - by intros ->.
  - by intros ->.
Qed.

(** C9.  The weekly revenue is computed at the selling prices the store
    holds when the dashboard is served: after an edit of a product that
    goes through (the form has a name and numeric fields that the store
    can hold) the same sales are reported with the same profit, and
    with a revenue in which each sale of the edited product counts at
    the new selling price, as the store holds it. *)
Theorem dashboard_revenue_at_current_price now now' product_id form db product name
    stock_quantity buying_price selling_price buying_price' selling_price' :
  products db !! product_id = Some product →
  form !! "name" = Some name →
  int_field form "stock_quantity" stock_quantity →
  float_field form "buying_price" buying_price →
  float_field form "selling_price" selling_price →
  sqlite_integer stock_quantity →
  sql_real buying_price = Some buying_price' →
  sql_real selling_price = Some selling_price' →
  products_exist db (since_week_ago now db) →
  let db' := (edit_product now' product_id form db).2 in
  let weekly_sales := since_week_ago now db in
  dashboard now db = Ok (mkDashboard (revenue db weekly_sales) (profit weekly_sales)) ∧
  dashboard now db' = Ok (mkDashboard (revenue db' weekly_sales) (profit weekly_sales)) ∧
  (∀ sale, sale ∈ weekly_sales →
     current_price db' sale =
       if decide (Sale.product_id sale = product_id) then selling_price'
       else current_price db sale) ∧
  revenue db' weekly_sales =
    foldl (λ acc sale,
             fadd acc
               (fmul (if decide (Sale.product_id sale = product_id) then selling_price'
                      else current_price db sale)
                     (float_of_int (Sale.quantity_sold sale))))
          (float_of_int 0) weekly_sales.
Proof.
  intros Hprod Hname Hstock%int_field_py_int Hbp%float_field_py_float
         Hsp%float_field_py_float Hint Hbp' Hsp' Hall db' weekly_sales.
  assert (Hrow : row_storable stock_quantity buying_price selling_price
                              buying_price' selling_price') by done.
  assert (Hdb' : db' = mkStore (<[product_id := Product.mk name stock_quantity buying_price'
                                                  selling_price']> (products db)) (sales db)).
  { unfold db'.
    by rewrite (edit_product_ok _ _ _ _ _ _ _ _ _ _ _ Hprod Hname Hstock Hbp Hsp Hrow). }
  assert (Hprice : ∀ sale,
            current_price db' sale =
              if decide (Sale.product_id sale = product_id) then selling_price'
              else current_price db sale).
  { intros sale. rewrite Hdb'. unfold current_price. cbn.
    case_decide as Hid; [rewrite Hid; by rewrite lookup_insert_eq|].
    by rewrite lookup_insert_ne. }
  assert (Hweek : since_week_ago now db' = weekly_sales).
  { rewrite Hdb'. done. }
  split_and!.
  - by destruct (dashboard_spec now db) as [[_ ->]|[Hnot _]].
  - destruct (dashboard_spec now db') as [[_ Hd]|[Hnot _]].
    + by rewrite Hd, Hweek.
    + destruct Hnot. rewrite Hweek. intros sale Hin.
      rewrite Hdb'. cbn. destruct (decide (product_id = Sale.product_id sale)) as [<-|Hne].
      * by rewrite lookup_insert_eq.
      * rewrite lookup_insert_ne by done. by apply Hall.
  - intros sale _. apply Hprice.
  - unfold revenue. clear Hweek. generalize (float_of_int 0).
    induction weekly_sales as [|sale l IH]; intros acc; [done|].
    cbn. by rewrite Hprice, IH.
Qed.

(** ** [delete_product] *)

Lemma product_sales_nil db product_id :
  product_sales db product_id = [] ↔
  ∀ sale, sale ∈ sales db → Sale.product_id sale ≠ product_id.
Proof.
  unfold product_sales. split.
  - intros Hnil sale Hin Heq.
    by apply (filter_nil_not_elem_of _ _ sale Hnil Heq).
  - intros Hall. induction (sales db) as [|sale l IH]; [done|].
    rewrite filter_cons. case_decide as Heq.
    + destruct (Hall sale); [by left|done].
    + apply IH. intros sale' Hin. apply Hall. by right.
Qed.

(** C6, as the code has it.  Deleting an existing product that no sale
    references removes it and nothing else, so it is not in the inventory
    listing any more; deleting one that a sale references is refused
    (the sale's [product_id] cannot be set to NULL): the flash is an
    error and the store, the product included, is as before. *)
Theorem delete_product_unless_referenced now product_id db product :
  products db !! product_id = Some product →
  ((∀ sale, sale ∈ sales db → Sale.product_id sale ≠ product_id) →
   delete_product now product_id db =
     (Redirect "inventory" success (ProductDeleted (Product.name product)),
      mkStore (delete product_id (products db)) (sales db)) ∧
   (∀ row, row ∈ inventory (delete_product now product_id db).2 → row.1 ≠ product_id) ∧
   (∀ j other, j ≠ product_id → products db !! j = Some other →
               (j, other) ∈ inventory (delete_product now product_id db).2)) ∧
  ((∃ sale, sale ∈ sales db ∧ Sale.product_id sale = product_id) →
   delete_product now product_id db =
     (Redirect "inventory" danger (DeleteFailed IntegrityError), db) ∧
   (product_id, product) ∈ inventory (delete_product now product_id db).2).
Proof.
  intros Hprod. rewrite (delete_product_found _ _ _ _ Hprod). split.
  - intros Hnone%product_sales_nil. rewrite Hnone. split_and!; [done|..]; cbn.
    + intros [j other] Hin%elem_of_map_to_list Hj. cbn in Hj, Hin. subst j.
      by rewrite lookup_delete_eq in Hin.
    + intros j other Hne Hj. apply elem_of_map_to_list. cbn.
      by rewrite lookup_delete_ne.
  - intros (sale & Hin & Hid).
    destruct (product_sales db product_id) as [|sale' l] eqn:Hsales.
    + by destruct (proj1 (product_sales_nil db product_id) Hsales sale Hin).
    + split; [done|]. by apply elem_of_map_to_list.
Qed.


(** C10.  In [/inventory/add] and [/inventory/edit/<id>] a numeric field
    that the form does not carry counts as 0: with a name, and the
    numeric fields it does carry being literals that the store can hold,
    the product is created (edited) with 0 in each absent field, and the
    flash is a success. *)
Theorem absent_numeric_field_is_zero now form db name stock_quantity buying_price
    selling_price buying_price' selling_price' :
  form !! "name" = Some name →
  int_field form "stock_quantity" stock_quantity →
  float_field form "buying_price" buying_price →
  float_field form "selling_price" selling_price →
  (is_Some (form !! "stock_quantity") → sqlite_integer stock_quantity) →
  (if form !! "buying_price" is Some _ then sql_real buying_price = Some buying_price'
   else buying_price' = float_of_int 0) →
  (if form !! "selling_price" is Some _ then sql_real selling_price = Some selling_price'
   else selling_price' = float_of_int 0) →
  let row := Product.mk name stock_quantity buying_price' selling_price' in
  let id := next_rowid (map_to_list (products db)).*1 in
  (form !! "stock_quantity" = None → Product.stock_quantity row = 0) ∧
  (form !! "buying_price" = None → Product.buying_price row = float_of_int 0) ∧
  (form !! "selling_price" = None → Product.selling_price row = float_of_int 0) ∧
  add_product now form db =
    (Redirect "inventory" success (ProductAdded (Some name)),
     mkStore (<[id := row]> (products db)) (sales db)) ∧
  products db !! id = None ∧
  ∀ product_id product,
    products db !! product_id = Some product →
    edit_product now product_id form db =
      (Redirect "inventory" success (ProductEdited (Some name)),
       mkStore (<[product_id := row]> (products db)) (sales db)).
Proof.
  intros Hname Hstock Hbp Hsp Hint Hbp' Hsp' row id.
  assert (Hrow : row_storable stock_quantity buying_price selling_price
                              buying_price' selling_price').
  { unfold int_field, float_field in *. split_and!.
    - destruct (form !! "stock_quantity"); [by apply Hint|].
      subst stock_quantity. unfold sqlite_integer. lia.
    - destruct (form !! "buying_price"); [done|]. subst. apply sql_real_zero.
    - destruct (form !! "selling_price"); [done|]. subst. apply sql_real_zero. }
  split_and!.
  - intros Hnone. unfold int_field in Hstock. by rewrite Hnone in Hstock.
  - intros Hnone. by rewrite Hnone in Hbp'.
  - intros Hnone. by rewrite Hnone in Hsp'.
  - apply (add_product_ok _ _ _ _ _ buying_price selling_price);
      [done|by apply int_field_py_int|by apply float_field_py_float..|done].
  - apply next_product_id_free.
  - intros product_id product Hprod.
    apply (edit_product_ok _ _ _ _ product _ _ buying_price selling_price);
      [done|done|by apply int_field_py_int|by apply float_field_py_float..|done].
Qed.

(** ** Every sale keeps its product

    The hypothesis of the dashboard theorems holds in every store the
    application reaches from an empty database. *)

Lemma add_product_cases now form db :
  (add_product now form db).2 = db ∨
  ∃ row, (add_product now form db).2
         = mkStore (<[next_rowid (map_to_list (products db)).*1 := row]> (products db))
                   (sales db).
Proof.
  unfold add_product, add_product_try.
  destruct (py_int _); [|by left]. cbn -[product_row].
  destruct (py_float (form_get form "buying_price" _)); [|by left]. cbn -[product_row].
  destruct (py_float _); [|by left]. cbn -[product_row].
  destruct (product_row _ _ _ _); [|by left]. right. by eexists.
Qed.

Lemma edit_product_cases now product_id form db :
  (edit_product now product_id form db).2 = db ∨
  ∃ product row,
    products db !! product_id = Some product ∧
    (edit_product now product_id form db).2
    = mkStore (<[product_id := row]> (products db)) (sales db).
Proof.
  unfold edit_product, edit_product_try, get_or_404.
  destruct (products db !! product_id) as [product|] eqn:Hprod; [|by left].
  cbn -[product_row].
  destruct (py_int _); [|by left]. cbn -[product_row].
  destruct (py_float (form_get form "buying_price" _)); [|by left]. cbn -[product_row].
  destruct (py_float _); [|by left]. cbn -[product_row].
  destruct (product_row _ _ _ _); [|by left]. right. cbn.
  rewrite (alter_existing _ _ _ product) by done. by eexists _, _.
Qed.

Lemma products_exist_insert db (l : list (Sale.t F)) (i : Z) (row : Product.t F)
    (sales' : list (Sale.t F)) :
  products_exist db l → products_exist (mkStore (<[i := row]> (products db)) sales') l.
Proof.
  intros Hall sale Hin. cbn. destruct (decide (i = Sale.product_id sale)) as [<-|Hne].
  - by rewrite lookup_insert_eq.
  - rewrite lookup_insert_ne by done. by apply Hall.
Qed.

Lemma step_products_exist now req db :
  products_exist db (sales db) →
  products_exist (step now req db) (sales (step now req db)).
Proof.
  intros Hall. destruct req; cbn; try done.
  - destruct (add_product_cases now form db) as [->|[row ->]]; [done|].
    by apply products_exist_insert.
  - destruct (edit_product_cases now product_id form db) as [->|(old & row & _ & ->)]; [done|].
    by apply products_exist_insert.
  - destruct (products db !! product_id) as [product|] eqn:Hprod;
      [|by rewrite delete_product_not_found].
    rewrite (delete_product_found _ _ _ _ Hprod).
    destruct (product_sales db product_id) as [|s l] eqn:Hsales; [|done].
    intros sale Hin. cbn in *.
    rewrite lookup_delete_ne; [by apply Hall|].
    intros ->. by apply (proj1 (product_sales_nil db _) Hsales sale Hin).
  - destruct (process_sale_cases now form db) as [->|(pid & p & q & x & Hp & _ & _ & ->)]; [done|].
    unfold after_sale. intros sale [Hin| ->%list_elem_of_singleton]%elem_of_app.
    + by apply (products_exist_insert db (sales db)).
    + cbn. by rewrite lookup_insert_eq.
Qed.

Lemma run_products_exist trace :
  products_exist (run trace init_db) (sales (run trace (init_db (F:=F)))).
Proof.
  assert (Hgen : ∀ db, products_exist db (sales db) →
                       products_exist (run trace db) (sales (run trace db))).
  { induction trace as [|[now req] trace IH]; intros db Hall; [done|].
    cbn. apply IH. by apply step_products_exist. }
  apply Hgen. by intros sale ?%elem_of_nil.
Qed.

End Properties.

(** * Further properties of the handlers *)

Section Coverage.
Context {F : Type} `{!PyRuntime F}.
Implicit Types (db : Store F) (form : gmap string string) (now : Z).
Implicit Types (product : Product.t F) (sale : Sale.t F).

(** ** Flashes and the store *)

(** X1.  Each of the four handlers that write answers with a redirect to its
    page, whatever the request, never with an abort; and when the flash
    is of category [danger], the store is as it was. *)
Theorem danger_flash_store_unchanged now form product_id db :
  (∃ category message,
     (add_product now form db).1 = Redirect "inventory" category message ∧
     (category = danger → (add_product now form db).2 = db)) ∧
  (∃ category message,
     (edit_product now product_id form db).1 = Redirect "inventory" category message ∧
     (category = danger → (edit_product now product_id form db).2 = db)) ∧
  (∃ category message,
     (delete_product now product_id db).1 = Redirect "inventory" category message ∧
     (category = danger → (delete_product now product_id db).2 = db)) ∧
  (∃ category message,
     (process_sale now form db).1 = Redirect "sale_page" category message ∧
     (category = danger → (process_sale now form db).2 = db)).
Proof.
  split_and!.
  - unfold add_product, add_product_try.
    destruct (py_int _); [|by eexists _, _]. cbn -[product_row].
    destruct (py_float (form_get form "buying_price" _)); [|by eexists _, _].
    cbn -[product_row].
    destruct (py_float _); [|by eexists _, _]. cbn -[product_row].
    destruct (product_row _ _ _ _); by eexists _, _.
  - unfold edit_product, edit_product_try, get_or_404.
    destruct (products db !! product_id); [|by eexists _, _]. cbn -[product_row].
    destruct (py_int _); [|by eexists _, _]. cbn -[product_row].
    destruct (py_float (form_get form "buying_price" _)); [|by eexists _, _].
    cbn -[product_row].
    destruct (py_float _); [|by eexists _, _]. cbn -[product_row].
    destruct (product_row _ _ _ _); by eexists _, _.
  - destruct (products db !! product_id) as [product|] eqn:Hprod.
    + rewrite (delete_product_found _ _ _ _ Hprod).
      destruct (product_sales db product_id); by eexists _, _.
    + rewrite delete_product_not_found by done. by eexists _, _.
  - pose proof (process_sale_raises now form db) as Hr.
    destruct (form !! "product_id") as [spid|] eqn:Hp; [|rewrite Hr; by eexists _, _].
    destruct (int_of_str spid) as [pid|] eqn:Hpi; [|rewrite Hr; by eexists _, _].
    destruct (form !! "quantity_sold") as [sqty|] eqn:Hq; [|rewrite Hr; by eexists _, _].
    destruct (int_of_str sqty) as [q|] eqn:Hqi; [|rewrite Hr; by eexists _, _].
    destruct (products db !! pid) as [product|] eqn:Hprod;
      [|rewrite Hr by done; by eexists _, _].
    rewrite (process_sale_parsed _ _ _ _ _ _ _ _ Hp Hpi Hq Hqi Hprod).
    case_decide; [by eexists _, _|]. case_decide; [|by eexists _, _].
    destruct (sql_real _); by eexists _, _.
Qed.

(** ** [add_product] and [edit_product] on a bad form *)

Lemma py_int_not_numeric form key s default :
  form !! key = Some s → int_of_str s = None →
  py_int (form_get form key default) = Raise ValueError.
Proof. intros Hs Hnum. unfold form_get. rewrite Hs. cbn. by rewrite Hnum. Qed.

Lemma py_float_not_numeric form key s default :
  form !! key = Some s → float_of_str s = None →
  py_float (form_get form key default) = Raise ValueError.
Proof. intros Hs Hnum. unfold form_get. rewrite Hs. cbn. by rewrite Hnum. Qed.

(** The body that [add_product] and [edit_product] share, on a bad
    form; [stmt] is the statement they commit, which makes its row with
    [product_row], and [k] what they do after the commit. *)
Lemma catalogue_form_error_raises form e (stmt : option string → Z → F → F → Stmt F)
    (k : Store F → Result (Response F * Store F)) now db :
  catalogue_form_error form e →
  (∀ name stock_quantity buying_price selling_price e,
     product_row name stock_quantity buying_price selling_price = Raise e →
     commit now [stmt name stock_quantity buying_price selling_price] db = Raise e) →
  (stock_quantity ← py_int (form_get form "stock_quantity" (PyInt 0));
   buying_price ← py_float (form_get form "buying_price" (PyInt 0));
   selling_price ← py_float (form_get form "selling_price" (PyInt 0));
   db' ← commit now [stmt (form !! "name") stock_quantity buying_price selling_price] db;
   k db') = Raise e.
Proof.
  intros Herr Hstmt.
  destruct Herr as [s Hs Hnum|n s Hn Hs Hnum|n x s Hn Hx Hs Hnum|n x y Hn Hx Hy Hint
                   |n x y Hn Hx Hy Hint Hnull].
  - by rewrite (py_int_not_numeric _ _ _ _ Hs Hnum).
  - rewrite (int_field_py_int _ _ _ Hn). cbn -[commit].
    by rewrite (py_float_not_numeric _ _ _ _ Hs Hnum).
  - rewrite (int_field_py_int _ _ _ Hn), (float_field_py_float _ _ _ Hx). cbn -[commit].
    by rewrite (py_float_not_numeric _ _ _ _ Hs Hnum).
  - rewrite (int_field_py_int _ _ _ Hn), (float_field_py_float _ _ _ Hx),
      (float_field_py_float _ _ _ Hy). cbn -[commit].
    rewrite (Hstmt _ _ _ _ OverflowError); [done|].
    unfold product_row. by rewrite decide_False.
  - rewrite (int_field_py_int _ _ _ Hn), (float_field_py_float _ _ _ Hx),
      (float_field_py_float _ _ _ Hy). cbn -[commit].
    rewrite (Hstmt _ _ _ _ IntegrityError); [done|].
    unfold product_row. rewrite decide_True by done.
    destruct Hnull as [->|[->| ->]]; [done|by destruct (form !! "name")|].
    by destruct (form !! "name"), (sql_real x).
Qed.

(** X2.  A form with a numeric field that is no number adds nothing
    and edits nothing, and neither does a form whose row the store
    cannot hold: the flash carries the exception ([ValueError] for the
    field that is no number, [OverflowError] for a stock outside 64
    bits, else [IntegrityError] for a missing name or a NaN price), and
    the store is as it was, although [edit_product] has assigned the
    fields before the bad one to the product by then.  For an id with no
    product [edit_product] fails on the lookup, before it looks at the
    form. *)
Theorem catalogue_form_rejected now form db e :
  catalogue_form_error form e →
  add_product now form db = (Redirect "inventory" danger (AddFailed e), db) ∧
  ∀ product_id,
    edit_product now product_id form db =
      (Redirect "inventory" danger
         (EditFailed (if products db !! product_id is Some _ then e
                      else no_row product_id)), db).
Proof.
  intros Herr. split.
  - unfold add_product, add_product_try.
    rewrite (catalogue_form_error_raises form e InsertProduct); [done|done|].
    intros name n x y e' Hrow. cbn -[product_row]. by rewrite Hrow.
  - intros product_id. unfold edit_product, edit_product_try, get_or_404.
    destruct (products db !! product_id) as [product|]; [|done]. cbn -[commit].
    rewrite (catalogue_form_error_raises form e (UpdateProduct product_id)); [done|done|].
    intros name n x y e' Hrow. cbn -[product_row]. by rewrite Hrow.
Qed.

(** ** The catalogue: add, edit, delete and look up *)

Lemma get_product_info_lookup product_id db :
  get_product_info product_id db =
    match products db !! product_id with
    | Some product => Jsonify (product_json product_id product)
    | None => Abort (if decide (sqlite_integer product_id) then 404 else 500)
    end.
Proof.
  unfold get_product_info, get_or_404, no_row.
  destruct (products db !! product_id); [done|]. by case_decide.
Qed.

Lemma store_eta db : mkStore (products db) (sales db) = db.
Proof. by destruct db. Qed.

(** X3.  [add_product] never overwrites: a request either leaves the store
    as it was, or puts one row under an id that was free and is above
    every id in use, next to all the products and sales there were. *)
Theorem add_product_fresh_id now form db :
  (add_product now form db).2 = db ∨
  ∃ id row,
    products db !! id = None ∧
    (∀ j, is_Some (products db !! j) → j < id) ∧
    products (add_product now form db).2 = <[id := row]> (products db) ∧
    (∀ j product, products db !! j = Some product →
                  products (add_product now form db).2 !! j = Some product) ∧
    sales (add_product now form db).2 = sales db.
Proof.
  destruct (add_product_cases now form db) as [Hsame|[row Hadd]]; [by left|right].
  rewrite Hadd. cbn. eexists _, row. split_and!; try done.
  - apply next_product_id_free.
  - intros j [product Hj]. apply next_rowid_fresh.
    apply list_elem_of_fmap. exists (j, product). by rewrite elem_of_map_to_list.
  - intros j product Hj. rewrite lookup_insert_ne; [done|].
    intros <-. by rewrite next_product_id_free in Hj.
Qed.

(** X4.  What was added can be looked up: after an add that goes
    through (the form has a name and numeric fields that the store can
    hold), the JSON endpoint answers the new id with the values of the
    form as the store holds them, the inventory lists the row, and the
    answers for the products that were there are the same. *)
Theorem add_product_then_lookup now form db name stock_quantity buying_price selling_price
    buying_price' selling_price' :
  form !! "name" = Some name →
  int_field form "stock_quantity" stock_quantity →
  float_field form "buying_price" buying_price →
  float_field form "selling_price" selling_price →
  sqlite_integer stock_quantity →
  sql_real buying_price = Some buying_price' →
  sql_real selling_price = Some selling_price' →
  let db' := (add_product now form db).2 in
  let id := next_rowid (map_to_list (products db)).*1 in
  let row := Product.mk name stock_quantity buying_price' selling_price' in
  get_product_info id db' = Jsonify (product_json id row) ∧
  (id, row) ∈ inventory db' ∧
  ∀ j, is_Some (products db !! j) → get_product_info j db' = get_product_info j db.
Proof.
  intros Hname Hstock%int_field_py_int Hbp%float_field_py_float Hsp%float_field_py_float
         Hint Hbp' Hsp' db' id row.
  assert (Hrow : row_storable stock_quantity buying_price selling_price
                              buying_price' selling_price') by done.
  unfold db'. rewrite (add_product_ok _ _ _ _ _ _ _ _ _ Hname Hstock Hbp Hsp Hrow). cbn.
  fold id row. split_and!.
  - rewrite get_product_info_lookup. cbn. by rewrite lookup_insert_eq.
  - apply elem_of_map_to_list. cbn. by rewrite lookup_insert_eq.
  - intros j [product Hj]. rewrite !get_product_info_lookup. cbn.
    rewrite lookup_insert_ne; [done|].
    intros Heq. unfold id in Heq. rewrite <- Heq in Hj.
    by rewrite next_product_id_free in Hj.
Qed.

(** X5.  Adding a product and deleting it again gives back the store
    there was, when the add goes through (the form has a name and
    numeric fields that the store can hold) in a store where every sale
    has its product: the new id has no sale, so the deletion goes
    through. *)
Theorem add_then_delete_restores now now' form db name stock_quantity buying_price
    selling_price buying_price' selling_price' :
  products_exist db (sales db) →
  form !! "name" = Some name →
  int_field form "stock_quantity" stock_quantity →
  float_field form "buying_price" buying_price →
  float_field form "selling_price" selling_price →
  sqlite_integer stock_quantity →
  sql_real buying_price = Some buying_price' →
  sql_real selling_price = Some selling_price' →
  delete_product now' (next_rowid (map_to_list (products db)).*1)
                 (add_product now form db).2
  = (Redirect "inventory" success (ProductDeleted name), db).
Proof.
  intros Hall Hname Hstock%int_field_py_int Hbp%float_field_py_float
         Hsp%float_field_py_float Hint Hbp' Hsp'.
  assert (Hrow : row_storable stock_quantity buying_price selling_price
                              buying_price' selling_price') by done.
  rewrite (add_product_ok _ _ _ _ _ _ _ _ _ Hname Hstock Hbp Hsp Hrow). cbn.
  set (id := next_rowid _). set (row := Product.mk _ _ _ _).
  rewrite (delete_product_found _ _ _ row); [|cbn; by rewrite lookup_insert_eq].
  assert (Hnone : product_sales (mkStore (<[id := row]> (products db)) (sales db)) id = []).
  { apply product_sales_nil. cbn. intros sale Hin Heq.
    destruct (Hall sale Hin) as [product Hprod].
    rewrite Heq in Hprod. unfold id in Hprod. by rewrite next_product_id_free in Hprod. }
  rewrite Hnone. cbn.
  rewrite delete_insert_id by apply next_product_id_free. by rewrite store_eta.
Qed.

(** X6.  [edit_product] touches one row: whatever the request, every other
    product is as it was, and the ids in use are the same (an edit
    neither creates nor removes a product). *)
Theorem edit_product_frame now product_id form db :
  (∀ j, j ≠ product_id →
        products (edit_product now product_id form db).2 !! j = products db !! j) ∧
  (∀ j, is_Some (products (edit_product now product_id form db).2 !! j) ↔
        is_Some (products db !! j)).
Proof.
  destruct (edit_product_cases now product_id form db)
    as [->|(product & row & Hprod & ->)]; [done|]. cbn. split.
  - intros j Hne. by rewrite lookup_insert_ne.
  - intros j. rewrite lookup_insert_is_Some.
    split; [intros [<-|[_ Hj]]; [by rewrite Hprod|done]|].
    intros Hj. destruct (decide (product_id = j)); [by left|by right].
Qed.

(** X7.  What was edited can be looked up: after an edit that goes
    through (the form has a name and numeric fields that the store can
    hold), the JSON endpoint answers the id with the values of the form
    as the store holds them (the stock is not checked against zero), and
    the answers for the other ids are the same. *)
Theorem edit_product_then_lookup now product_id form db product name stock_quantity
    buying_price selling_price buying_price' selling_price' :
  products db !! product_id = Some product →
  form !! "name" = Some name →
  int_field form "stock_quantity" stock_quantity →
  float_field form "buying_price" buying_price →
  float_field form "selling_price" selling_price →
  sqlite_integer stock_quantity →
  sql_real buying_price = Some buying_price' →
  sql_real selling_price = Some selling_price' →
  let db' := (edit_product now product_id form db).2 in
  get_product_info product_id db'
  = Jsonify (product_json product_id
               (Product.mk name stock_quantity buying_price' selling_price')) ∧
  ∀ j, j ≠ product_id → get_product_info j db' = get_product_info j db.
Proof.
  intros Hprod Hname Hstock%int_field_py_int Hbp%float_field_py_float
         Hsp%float_field_py_float Hint Hbp' Hsp' db'.
  assert (Hrow : row_storable stock_quantity buying_price selling_price
                              buying_price' selling_price') by done.
  unfold db'.
  rewrite (edit_product_ok _ _ _ _ _ _ _ _ _ _ _ Hprod Hname Hstock Hbp Hsp Hrow). cbn.
  split.
  - rewrite get_product_info_lookup. cbn. by rewrite lookup_insert_eq.
  - intros j Hne. rewrite !get_product_info_lookup. cbn. by rewrite lookup_insert_ne.
Qed.

(** X8.  After the deletion of a product that no sale references, its
    id is answered as an id that has no product: the JSON endpoint
    aborts with 404 and a second deletion flashes [NotFound] and changes
    nothing (with 500 and [OverflowError] in their place for an id
    outside 64 bits, which no row of the table has); the answers for the
    other ids are the same. *)
Theorem delete_product_then_lookup now now' product_id db product :
  products db !! product_id = Some product →
  (∀ sale, sale ∈ sales db → Sale.product_id sale ≠ product_id) →
  let db' := (delete_product now product_id db).2 in
  get_product_info product_id db'
  = Abort (if decide (sqlite_integer product_id) then 404 else 500) ∧
  delete_product now' product_id db'
  = (Redirect "inventory" danger
       (DeleteFailed (if decide (sqlite_integer product_id) then NotFound
                      else OverflowError)), db') ∧
  ∀ j, j ≠ product_id → get_product_info j db' = get_product_info j db.
Proof.
  intros Hprod Hnone%product_sales_nil db'.
  unfold db'. rewrite (delete_product_found _ _ _ _ Hprod), Hnone. cbn. split_and!.
  - rewrite get_product_info_lookup. cbn. by rewrite lookup_delete_eq.
  - apply delete_product_not_found. cbn. by rewrite lookup_delete_eq.
  - intros j Hne. rewrite !get_product_info_lookup. cbn. by rewrite lookup_delete_ne.
Qed.

(** ** Stores the application reaches *)

(** X9.  From an empty database the dashboard is always served: no sequence
    of requests leaves a sale whose product is gone, so the revenue loop
    never meets [None]. *)
Theorem dashboard_served_after_any_run trace now :
  let db := run trace (init_db (F:=F)) in
  dashboard now db = Ok (mkDashboard (revenue db (since_week_ago now db))
                                     (profit (since_week_ago now db))).
Proof.
  intros db. destruct (dashboard_spec now db) as [[_ Hd]|[Hnot _]]; [done|].
  destruct Hnot. intros sale [_ Hin]%list_elem_of_filter.
  by apply (run_products_exist trace).
Qed.

(** X10.  SQLite may give the id of a deleted product to a new one, but a
    product with sales cannot be deleted: in a store reached from an
    empty database the product that [add_product] creates has no sale. *)
Theorem new_product_has_no_sales trace now form :
  let db := run trace (init_db (F:=F)) in
  product_sales (add_product now form db).2 (next_rowid (map_to_list (products db)).*1) = [].
Proof.
  intros db. apply product_sales_nil. rewrite add_product_sales.
  intros sale Hin Heq.
  destruct (run_products_exist trace sale Hin) as [product Hprod].
  fold db in Hprod. rewrite Heq in Hprod. by rewrite next_product_id_free in Hprod.
Qed.

Lemma step_sales_cases now req db :
  sales (step now req db) = sales db ∨
  ∃ product_id quantity_sold profit_recorded,
    sales (step now req db)
    = sales db ++ [Sale.mk (next_rowid (Sale.id <$> sales db)) product_id quantity_sold
                           now profit_recorded].
Proof.
  destruct req; cbn; try by left.
  - left. apply add_product_sales.
  - left. apply edit_product_sales.
  - left. apply delete_product_sales.
  - destruct (process_sale_cases now form db) as [->|(pid & p & q & x & _ & _ & _ & ->)]; [by left|].
    right. by eexists _, _, _.
Qed.

(** X11.  The ids of the sales are given out in increasing order, so no two
    sales of a store reached from an empty database share an id. *)
Theorem sale_ids_increasing trace :
  StronglySorted Z.lt (Sale.id <$> sales (run trace (init_db (F:=F)))) ∧
  NoDup (Sale.id <$> sales (run trace (init_db (F:=F)))).
Proof.
  assert (Hgen : ∀ db,
            StronglySorted Z.lt (Sale.id <$> sales db) ∧ NoDup (Sale.id <$> sales db) →
            StronglySorted Z.lt (Sale.id <$> sales (run trace db)) ∧
            NoDup (Sale.id <$> sales (run trace db))).
  { induction trace as [|[now req] trace IH]; intros db Hdb; [done|].
    cbn. apply IH. destruct Hdb as [Hsorted Hnodup].
    destruct (step_sales_cases now req db) as [->|(pid & q & x & ->)]; [done|].
    rewrite fmap_app. cbn. split.
    - apply StronglySorted_app_2; [|done|repeat constructor].
      intros i j Hi ->%list_elem_of_singleton. by apply next_rowid_fresh.
    - apply NoDup_app. split_and!; [done| |apply NoDup_singleton].
      intros i Hi ->%list_elem_of_singleton. apply next_rowid_fresh in Hi. lia. }
  apply Hgen. cbn. split; constructor.
Qed.

(** ** Sales and the stock *)

Lemma units_app (l k : list (Sale.t F)) :
  foldr (λ sale total, Sale.quantity_sold sale + total) 0 (l ++ k)
  = foldr (λ sale total, Sale.quantity_sold sale + total) 0 l
    + foldr (λ sale total, Sale.quantity_sold sale + total) 0 k.
Proof. induction l as [|sale l IH]; cbn; lia. Qed.

(** X12.  A sale moves units from the stock to the sale table and loses none:
    for every product, the stock plus the units its sales record is the
    same after a request to [/sale/process] as before. *)
Theorem process_sale_conserves_units now form db product_id product :
  products db !! product_id = Some product →
  ∃ product',
    products (process_sale now form db).2 !! product_id = Some product' ∧
    Product.stock_quantity product' + units_sold (process_sale now form db).2 product_id
    = Product.stock_quantity product + units_sold db product_id.
Proof.
  intros Hprod.
  destruct (process_sale_cases now form db) as [->|(pid & p & q & x & Hp & _ & _ & ->)];
    [by exists product|].
  unfold units_sold, product_sales, after_sale. cbn.
  rewrite filter_app, units_app, filter_cons, filter_nil. cbn.
  destruct (decide (pid = product_id)) as [->|Hne].
  - rewrite lookup_insert_eq. simplify_eq. eexists. split; [done|]. cbn. lia.
  - rewrite lookup_insert_ne by done. exists product. split; [done|]. cbn. lia.
Qed.

(** X13.  Two requests for the same product, one after the other, the
    first of which goes through (the stock allows it and the store can
    hold it): the second is measured against what the first has left.
    If it fits and the store can hold it, the stock ends at
    [stock - q1 - q2] with two sales more; if it does not fit, it is
    refused with the stock the first has left as the available
    quantity. *)
Theorem process_sale_twice now1 now2 form1 form2 db spid1 sqty1 spid2 sqty2
    product_id q1 q2 product profit1 :
  form1 !! "product_id" = Some spid1 → int_of_str spid1 = Some product_id →
  form1 !! "quantity_sold" = Some sqty1 → int_of_str sqty1 = Some q1 →
  form2 !! "product_id" = Some spid2 → int_of_str spid2 = Some product_id →
  form2 !! "quantity_sold" = Some sqty2 → int_of_str sqty2 = Some q2 →
  products db !! product_id = Some product →
  q1 ≤ Product.stock_quantity product →
  sale_storable product q1 profit1 →
  let db1 := (process_sale now1 form1 db).2 in
  (∀ profit2,
     q2 ≤ Product.stock_quantity product - q1 →
     sale_storable (sold product q1) q2 profit2 →
     ∃ product',
       products (process_sale now2 form2 db1).2 !! product_id = Some product' ∧
       Product.stock_quantity product' = Product.stock_quantity product - q1 - q2 ∧
       length (sales (process_sale now2 form2 db1).2) = S (S (length (sales db)))) ∧
  (Product.stock_quantity product - q1 < q2 →
   process_sale now2 form2 db1
   = (Redirect "sale_page" danger
        (InsufficientStock (Product.stock_quantity product - q1)), db1)).
Proof.
  intros Hp1 Hpi1 Hq1 Hqi1 Hp2 Hpi2 Hq2 Hqi2 Hprod Hle Hst1 db1.
  assert (Hdb1 : db1 = after_sale now1 db product_id product q1 profit1).
  { unfold db1.
    by rewrite (process_sale_stored _ _ _ _ _ _ _ _ _ Hp1 Hpi1 Hq1 Hqi1 Hprod Hle Hst1). }
  assert (Hprod1 : products db1 !! product_id = Some (sold product q1)).
  { rewrite Hdb1. cbn. by rewrite lookup_insert_eq. }
  split.
  - intros profit2 Hfit Hst2.
    rewrite (process_sale_stored _ _ _ _ _ _ _ _ _ Hp2 Hpi2 Hq2 Hqi2 Hprod1 Hfit Hst2).
    cbn. rewrite lookup_insert_eq.
    eexists. split; [done|]. cbn. split; [done|].
    rewrite Hdb1. cbn. rewrite !length_app. cbn. lia.
  - intros Hnot. rewrite (process_sale_parsed _ _ _ _ _ _ _ _ Hp2 Hpi2 Hq2 Hqi2 Hprod1).
    cbn. by rewrite decide_True by lia.
Qed.

(** X14.  The sale page offers the products with a positive stock:
    after a sale that goes through (the stock allows it and the store
    can hold it), the product is still offered exactly when some stock
    is left, and it stays in the inventory either way. *)
Theorem sold_out_leaves_sale_page now form db spid sqty product_id quantity_sold product
    profit_recorded :
  form !! "product_id" = Some spid → int_of_str spid = Some product_id →
  form !! "quantity_sold" = Some sqty → int_of_str sqty = Some quantity_sold →
  products db !! product_id = Some product →
  quantity_sold ≤ Product.stock_quantity product →
  sale_storable product quantity_sold profit_recorded →
  let db' := (process_sale now form db).2 in
  (product_id ∈ (sale_page db').*1 ↔ quantity_sold < Product.stock_quantity product) ∧
  product_id ∈ (inventory db').*1.
Proof.
  intros Hp Hpi Hq Hqi Hprod Hle Hst db'.
  assert (Hdb' : products db' !! product_id = Some (sold product quantity_sold)).
  { unfold db'.
    rewrite (process_sale_stored _ _ _ _ _ _ _ _ _ Hp Hpi Hq Hqi Hprod Hle Hst).
    cbn. by rewrite lookup_insert_eq. }
  split; [split|].
  - intros [[j row] [Hj [Hpos Hin]%list_elem_of_filter]]%list_elem_of_fmap.
    cbn in Hj, Hpos. subst j. apply elem_of_map_to_list in Hin.
    rewrite Hdb' in Hin. simplify_eq. cbn in Hpos. lia.
  - intros Hlt. apply list_elem_of_fmap. exists (product_id, sold product quantity_sold).
    split; [done|]. apply list_elem_of_filter. split; [cbn; lia|].
    by apply elem_of_map_to_list.
  - apply list_elem_of_fmap. exists (product_id, sold product quantity_sold).
    split; [done|]. by apply elem_of_map_to_list.
Qed.

(** ** The recent sales of the dashboard *)

#[local] Instance sale_date_desc_trans : Transitive (sale_date_desc (F:=F)).
Proof. intros a b c. unfold sale_date_desc. lia. Qed.

#[local] Instance sale_date_desc_total : Total (sale_date_desc (F:=F)).
Proof. intros a b. unfold sale_date_desc. lia. Qed.

Lemma sorted_sales db :
  StronglySorted sale_date_desc (merge_sort sale_date_desc (sales db)) ∧
  merge_sort sale_date_desc (sales db) ≡ₚ sales db.
Proof. split; [apply StronglySorted_merge_sort; apply _|apply merge_sort_Permutation]. Qed.

(** X15.  The dashboard shows five sales, or all of them if there are fewer,
    newest first; every sale it leaves out is dated no later than every
    sale it shows.  This holds however the sales of the same date are
    ordered. *)
Theorem recent_sales_newest db :
  length (recent_sales db) = min 5 (length (sales db)) ∧
  StronglySorted sale_date_desc (recent_sales db) ∧
  ∃ left_out,
    recent_sales db ++ left_out ≡ₚ sales db ∧
    ∀ shown sale, shown ∈ recent_sales db → sale ∈ left_out →
                  Sale.sale_date sale ≤ Sale.sale_date shown.
Proof.
  destruct (sorted_sales db) as [Hsorted Hperm]. unfold recent_sales.
  rewrite <- (take_drop 5 (merge_sort sale_date_desc (sales db))) in Hsorted.
  split_and!.
  - by rewrite length_take, Hperm.
  - by apply StronglySorted_app_1_l in Hsorted.
  - exists (drop 5 (merge_sort sale_date_desc (sales db))). split.
    + by rewrite take_drop.
    + intros shown sale Hshown Hout.
      apply (StronglySorted_app_1_elem_of _ _ _ _ _ Hsorted Hshown Hout).
Qed.

(** X16.  A sale that goes through (the stock allows it and the store
    can hold it), at a clock reading later than the date of every sale
    there is, heads the recent sales of the next dashboard, with its
    profit as the store holds it. *)
Theorem recent_sales_head_after_sale now form db spid sqty product_id quantity_sold
    product profit_recorded :
  form !! "product_id" = Some spid → int_of_str spid = Some product_id →
  form !! "quantity_sold" = Some sqty → int_of_str sqty = Some quantity_sold →
  products db !! product_id = Some product →
  quantity_sold ≤ Product.stock_quantity product →
  sale_storable product quantity_sold profit_recorded →
  (∀ sale, sale ∈ sales db → Sale.sale_date sale < now) →
  head (recent_sales (process_sale now form db).2)
  = Some (Sale.mk (next_rowid (Sale.id <$> sales db)) product_id quantity_sold now
                  profit_recorded).
Proof.
  intros Hp Hpi Hq Hqi Hprod Hle Hst Hlater.
  rewrite (process_sale_stored _ _ _ _ _ _ _ _ _ Hp Hpi Hq Hqi Hprod Hle Hst). cbn.
  set (new := Sale.mk _ _ _ _ _).
  destruct (sorted_sales
              (after_sale now db product_id product quantity_sold profit_recorded))
    as [Hsorted Hperm].
  unfold recent_sales. cbn in Hsorted, Hperm. fold new in Hsorted, Hperm.
  unfold after_sale. cbn. fold new.
  destruct (merge_sort sale_date_desc (sales db ++ [new])) as [|first others] eqn:Hsort.
  { apply Permutation_nil_l in Hperm. by destruct (sales db). }
  cbn. f_equal.
  assert (Hfirst : first ∈ sales db ++ [new]) by (rewrite <- Hperm; by left).
  assert (Hnew : new ∈ first :: others).
  { rewrite Hperm. apply elem_of_app. right. by apply list_elem_of_singleton. }
  apply elem_of_app in Hfirst as [Hold|Heq]; [|by apply list_elem_of_singleton in Heq].
  apply elem_of_cons in Hnew as [Hnew|Hnew]; [done|].
  apply StronglySorted_cons in Hsorted as [Hall _].
  rewrite Forall_forall in Hall. specialize (Hall new Hnew).
  specialize (Hlater first Hold). unfold sale_date_desc in Hall. cbn in Hall. lia.
Qed.

(** ** The dates of the sales *)

Lemma step_sale_dates now req db :
  Sale.sale_date <$> sales (step now req db) = Sale.sale_date <$> sales db ∨
  Sale.sale_date <$> sales (step now req db) = (Sale.sale_date <$> sales db) ++ [now].
Proof.
  destruct (step_sales_cases now req db) as [->|(pid & q & x & ->)]; [by left|].
  right. by rewrite fmap_app.
Qed.

Lemma run_sale_dates trace db :
  StronglySorted Z.le trace.*1 →
  StronglySorted Z.le (Sale.sale_date <$> sales db) →
  (∀ date reading, date ∈ Sale.sale_date <$> sales db → reading ∈ trace.*1 →
                   date ≤ reading) →
  StronglySorted Z.le (Sale.sale_date <$> sales (run trace db)) ∧
  ∀ date, date ∈ Sale.sale_date <$> sales (run trace db) →
          date ∈ (Sale.sale_date <$> sales db) ++ trace.*1.
Proof.
  revert db. induction trace as [|[now req] trace IH]; intros db Hclock Hsorted Hbefore.
  { cbn. split; [done|]. intros date Hin. by rewrite app_nil_r. }
  cbn in Hclock. apply StronglySorted_cons in Hclock as [Hnow Hclock].
  rewrite Forall_forall in Hnow. cbn.
  destruct (step_sale_dates now req db) as [Hdates|Hdates].
  - destruct (IH (step now req db) Hclock) as [IH1 IH2].
    + by rewrite Hdates.
    + rewrite Hdates. intros date reading Hdate Hreading.
      apply Hbefore; [done|]. cbn. by right.
    + split; [done|]. intros date Hin. apply IH2 in Hin. rewrite Hdates in Hin.
      apply elem_of_app in Hin as [Hold|Hlater]; apply elem_of_app; [by left|].
      right. by right.
  - destruct (IH (step now req db) Hclock) as [IH1 IH2].
    + rewrite Hdates. apply StronglySorted_app_2; [|done|repeat constructor].
      intros date reading Hdate ->%list_elem_of_singleton.
      apply Hbefore; [done|]. cbn. by left.
    + rewrite Hdates. intros date reading [Hdate| ->%list_elem_of_singleton]%elem_of_app
                              Hreading.
      * apply Hbefore; [done|]. cbn. by right.
      * by apply Hnow.
    + split; [done|]. intros date Hin. apply IH2 in Hin. rewrite Hdates in Hin.
      by rewrite <- app_assoc in Hin.
Qed.

(** X17.  While the clock does not go back, the sale table is in the order of
    time: along requests served at non-decreasing clock readings, from
    an empty database, the sales are dated in non-decreasing order, each
    with the reading of one of the requests. *)
Theorem sale_dates_follow_clock trace :
  StronglySorted Z.le trace.*1 →
  StronglySorted Z.le (Sale.sale_date <$> sales (run trace (init_db (F:=F)))) ∧
  ∀ sale, sale ∈ sales (run trace (init_db (F:=F))) → Sale.sale_date sale ∈ trace.*1.
Proof.
  intros Hclock.
  destruct (run_sale_dates trace init_db Hclock) as [Hsorted Hdates].
  - constructor.
  - by intros date reading ?%elem_of_nil.
  - split; [done|]. intros sale Hin. apply (Hdates (Sale.sale_date sale)).
    apply list_elem_of_fmap. by exists sale.
Qed.

End Coverage.

(** * The handlers on the example store *)

Section Evaluation.
Import Float64 Example.
Local Open Scope float_scope.

(** Closed facts about the example store, by evaluation. *)
Local Ltac evaluate := vm_compute; repeat split; first [reflexivity | discriminate].



(** A profit that is a negative zero (a loss per unit, no unit sold) is
    recorded as zero. *)
Example process_sale_negative_zero :
  sale_profit (Product.mk "solde" 3 2 1.5) 0 = (-0)%float ∧
  sales (process_sale t0 (sale_form "1" "0")
           (mkStore {[ 1%Z := Product.mk "solde" 3 2 1.5 ]} [])).2
  = [Sale.mk 1 1 0 t0 0].
Proof. evaluate. Qed.

Example db1_value :
  db1 = mkStore {[ 1%Z := Product.mk "stylo" 6 2 3.5; 2%Z := cahier ]}
                [Sale.mk 1 1 4 t0 6].
Proof. vm_compute. reflexivity. Qed.

(** Eleven [stylo] asked for, ten in stock. *)
Lemma process_sale_failure_example :
  (process_sale t0 (sale_form "1" "11") db0).2 = db0 ∧
  ∃ message,
    (process_sale t0 (sale_form "1" "11") db0).1 = Redirect "sale_page" danger message ∧
    ∀ spid sqty product_id quantity_sold product,
      sale_form "1" "11" !! "product_id" = Some spid →
      int_of_str spid = Some product_id →
      sale_form "1" "11" !! "quantity_sold" = Some sqty →
      int_of_str sqty = Some quantity_sold →
      products db0 !! product_id = Some product →
      (Product.stock_quantity product < quantity_sold)%Z →
      message = InsufficientStock (Product.stock_quantity product).
Proof.
  apply (proj1 (process_sale_failure_atomic t0 (sale_form "1" "11") db0)).
  apply (stock_insufficient _ _ "1" "11" 1 11 stylo); [reflexivity..|].
  vm_compute. reflexivity.
Defined.

Example process_sale_failures :
  process_sale t0 (sale_form "1" "11") db0
    = (Redirect "sale_page" danger (InsufficientStock 10), db0) ∧
  process_sale t0 (sale_form "1" "quatre") db0
    = (Redirect "sale_page" danger (SaleFailed ValueError), db0) ∧
  process_sale t0 {[ "product_id" := "1" ]} db0
    = (Redirect "sale_page" danger (SaleFailed TypeError), db0) ∧
  process_sale t0 (sale_form "7" "1") db0
    = (Redirect "sale_page" danger (SaleFailed NotFound), db0).
Proof. by vm_compute. Qed.

Lemma process_sale_stock_nonneg_example :
  ∃ product',
    products (process_sale t0 (sale_form "1" "4") db0).2 !! 1%Z = Some product' ∧
    (0 ≤ Product.stock_quantity product')%Z.
Proof.
  apply (process_sale_stock_nonneg t0 (sale_form "1" "4") db0 1 stylo);
    [reflexivity|vm_compute; discriminate].
Defined.

(** A request for minus three [stylo] is served: the stock goes up to
    thirteen and a [Sale] with [quantity_sold = -3] is recorded. *)
Lemma process_sale_negative_quantity :
  process_sale t0 (sale_form "1" "-3") db0
    = (Redirect "sale_page" success (SaleRecorded (-3) "stylo" (-4.5)),
       mkStore {[ 1%Z := Product.mk "stylo" 13 2 3.5; 2%Z := cahier ]}
               [Sale.mk 1 1 (-3) t0 (-4.5)]) ∧
  ¬ (∀ sale, sale ∈ sales (process_sale t0 (sale_form "1" "-3") db0).2 →
             (0 < Sale.quantity_sold sale)%Z).
Proof.
  assert (Hsale : process_sale t0 (sale_form "1" "-3") db0
    = (Redirect "sale_page" success (SaleRecorded (-3) "stylo" (-4.5)),
       mkStore {[ 1%Z := Product.mk "stylo" 13 2 3.5; 2%Z := cahier ]}
               [Sale.mk 1 1 (-3) t0 (-4.5)])) by (by vm_compute).
  split; [done|]. rewrite Hsale. cbn. intros Hpos.
  specialize (Hpos (Sale.mk 1 1 (-3) t0 (-4.5))). cbn in Hpos.
  assert (0 < -3)%Z; [apply Hpos; by left|lia].
Qed.

(** The dashboard served at the clock reading [t0] of the sale counts
    that sale, which the window ending before [t0] does not hold. *)
Lemma dashboard_counts_sale_dated_now :
  trailing_week t0 db1 = [] ∧
  dashboard t0 db1 = Ok (mkDashboard 14 6) ∧
  dashboard t0 db1 ≠ Ok (mkDashboard (revenue db1 (trailing_week t0 db1))
                                     (profit (trailing_week t0 db1))).
Proof.
  split_and!; [by vm_compute..|].
  vm_compute. discriminate.
Qed.

(** In [db1] the one sale of the week is of a product in the store. *)
Lemma db1_products_exist : products_exist db1 (since_week_ago (t0 + 1) db1).
Proof.
  intros sale Hin.
  assert (Hweek : since_week_ago (t0 + 1) db1 = [Sale.mk 1 1 4 t0 6]) by (by vm_compute).
  rewrite Hweek in Hin. apply list_elem_of_singleton in Hin. rewrite Hin.
  exists (Product.mk "stylo" 6 2 3.5). by vm_compute.
Qed.

Lemma dashboard_weekly_figures_example :
  dashboard (t0 + 1) db1
    = Ok (mkDashboard (revenue db1 (since_week_ago (t0 + 1) db1))
                      (profit (since_week_ago (t0 + 1) db1))) ∧
  (∀ sale, sale ∈ since_week_ago (t0 + 1) db1 ↔
           sale ∈ sales db1 ∧ (t0 + 1 - 7 * 86400 * 1000000 ≤ Sale.sale_date sale)%Z) ∧
  revenue db1 (since_week_ago (t0 + 1) db1) =
    foldl (λ acc sale,
             fadd acc (fmul (current_price db1 sale) (float_of_int (Sale.quantity_sold sale))))
          (float_of_int 0) (since_week_ago (t0 + 1) db1) ∧
  (∀ sale, sale ∈ since_week_ago (t0 + 1) db1 →
     ∃ product, products db1 !! Sale.product_id sale = Some product ∧
                current_price db1 sale = Product.selling_price product) ∧
  profit (since_week_ago (t0 + 1) db1)
    = py_sum (Sale.profit_recorded <$> since_week_ago (t0 + 1) db1).
Proof.
  apply (dashboard_weekly_figures (t0 + 1) db1), db1_products_exist.
Defined.

(** [stylo] has a sale in [db1]: its deletion is refused and it stays in
    the inventory listing. *)
Lemma delete_product_with_sale_refused :
  products db1 !! 1%Z = Some (Product.mk "stylo" 6 2 3.5) ∧
  delete_product (t0 + 1) 1 db1
    = (Redirect "inventory" danger (DeleteFailed IntegrityError), db1) ∧
  (1%Z, Product.mk "stylo" 6 2 3.5) ∈ inventory (delete_product (t0 + 1) 1 db1).2 ∧
  ¬ (∀ row, row ∈ inventory (delete_product (t0 + 1) 1 db1).2 → row.1 ≠ 1%Z).
Proof.
  assert (Hin : (1%Z, Product.mk "stylo" 6 2 3.5)
                ∈ inventory (delete_product (t0 + 1) 1 db1).2).
  { apply elem_of_map_to_list. by vm_compute. }
  split_and!; [by vm_compute|by vm_compute|done|].
  intros Hgone. by apply (Hgone _ Hin).
Qed.

(** [cahier] has none: it is deleted. *)
Lemma delete_product_example :
  delete_product (t0 + 1) 2 db1 =
    (Redirect "inventory" success (ProductDeleted (Product.name cahier)),
     mkStore (delete 2%Z (products db1)) (sales db1)) ∧
  (∀ row, row ∈ inventory (delete_product (t0 + 1) 2 db1).2 → row.1 ≠ 2%Z) ∧
  (∀ j other, j ≠ 2%Z → products db1 !! j = Some other →
              (j, other) ∈ inventory (delete_product (t0 + 1) 2 db1).2).
Proof.
  apply (delete_product_unless_referenced (t0 + 1) 2 db1 cahier); [by vm_compute|].
  intros sale Hin. rewrite db1_value in Hin. cbn in Hin.
  apply list_elem_of_singleton in Hin. by rewrite Hin.
Defined.

Example delete_product_unreferenced :
  delete_product (t0 + 1) 2 db1
  = (Redirect "inventory" success (ProductDeleted "cahier"),
     mkStore {[ 1%Z := Product.mk "stylo" 6 2 3.5 ]} [Sale.mk 1 1 4 t0 6]).
Proof. by vm_compute. Qed.

(** The selling price of [stylo] raised from 3.5 to 5.0 after the sale:
    the week's revenue goes from 14.0 to 20.0, the profit stays 6.0. *)
Lemma dashboard_revenue_example :
  let db' := (edit_product (t0 + 1) 1 edit_form db1).2 in
  let weekly_sales := since_week_ago (t0 + 1) db1 in
  dashboard (t0 + 1) db1 = Ok (mkDashboard (revenue db1 weekly_sales) (profit weekly_sales)) ∧
  dashboard (t0 + 1) db' = Ok (mkDashboard (revenue db' weekly_sales) (profit weekly_sales)) ∧
  (∀ sale, sale ∈ weekly_sales →
     current_price db' sale =
       if decide (Sale.product_id sale = 1%Z) then 5 else current_price db1 sale) ∧
  revenue db' weekly_sales =
    foldl (λ acc sale,
             fadd acc
               (fmul (if decide (Sale.product_id sale = 1%Z) then 5
                      else current_price db1 sale)
                     (float_of_int (Sale.quantity_sold sale))))
          (float_of_int 0) weekly_sales.
Proof.
  apply (dashboard_revenue_at_current_price (t0 + 1) (t0 + 1) 1 edit_form db1
           (Product.mk "stylo" 6 2 3.5) "stylo" 6 2 5 2 5);
    [evaluate..|apply db1_products_exist].
Defined.

Example dashboard_before_and_after_edit :
  dashboard (t0 + 1) db1 = Ok (mkDashboard 14 6) ∧
  dashboard (t0 + 1) (edit_product (t0 + 1) 1 edit_form db1).2 = Ok (mkDashboard 20 6).
Proof. by vm_compute. Qed.

(** A form with a name and no numeric field. *)
Lemma absent_numeric_field_example :
  let row := Product.mk "gomme" 0 (float_of_int 0) (float_of_int 0) in
  let id := next_rowid (map_to_list (products db0)).*1 in
  (name_only !! "stock_quantity" = None → Product.stock_quantity row = 0%Z) ∧
  (name_only !! "buying_price" = None → Product.buying_price row = float_of_int 0) ∧
  (name_only !! "selling_price" = None → Product.selling_price row = float_of_int 0) ∧
  add_product t0 name_only db0 =
    (Redirect "inventory" success (ProductAdded (Some "gomme")),
     mkStore (<[id := row]> (products db0)) (sales db0)) ∧
  products db0 !! id = None ∧
  ∀ product_id product,
    products db0 !! product_id = Some product →
    edit_product t0 product_id name_only db0 =
      (Redirect "inventory" success (ProductEdited (Some "gomme")),
       mkStore (<[product_id := row]> (products db0)) (sales db0)).
Proof.
  apply (absent_numeric_field_is_zero t0 name_only db0 "gomme" 0
           (float_of_int 0) (float_of_int 0) (float_of_int 0) (float_of_int 0));
    first [by intros [? [=]] | evaluate].
Defined.

Example add_product_name_only :
  add_product t0 name_only db0
  = (Redirect "inventory" success (ProductAdded (Some "gomme")),
     mkStore {[ 1%Z := stylo; 2%Z := cahier; 3%Z := Product.mk "gomme" 0 0 0 ]} []).
Proof. by vm_compute. Qed.

Example get_product_info_example :
  get_product_info 1 db1
    = Jsonify [("id", JInt 1); ("name", JStr "stylo"); ("stock_quantity", JInt 6);
               ("buying_price", JFloat 2); ("selling_price", JFloat 3.5)] ∧
  get_product_info 7 db1 = Abort 404.
Proof. by vm_compute. Qed.


End Evaluation.

(** * The further properties on the example store *)

Section CoverageEvaluation.
Import Float64 Example.
Local Open Scope float_scope.

Local Ltac evaluate := vm_compute; repeat split; first [reflexivity | discriminate].

(** In [db1] the one sale is of [stylo], dated [t0]. *)
Lemma db1_sale (sale : Sale.t float) : sale ∈ sales db1 → sale = Sale.mk 1 1 4 t0 6.
Proof. rewrite db1_value. cbn. by intros ?%list_elem_of_singleton. Qed.

(** A buying price written with a comma. *)
Lemma catalogue_form_rejected_example :
  add_product t0 bad_price_form db1
    = (Redirect "inventory" danger (AddFailed ValueError), db1) ∧
  ∀ product_id,
    edit_product t0 product_id bad_price_form db1 =
      (Redirect "inventory" danger
         (EditFailed (if products db1 !! product_id is Some _ then ValueError
                      else no_row product_id)),
       db1).
Proof.
  apply (catalogue_form_rejected t0 bad_price_form db1 ValueError).
  apply (buying_not_numeric _ 3%Z "0,5"); by vm_compute.
Defined.

(** A stock beyond 64 bits, a price that is NaN, and an id beyond 64
    bits. *)
Example catalogue_form_rejected_by_store :
  add_product t0 (<["stock_quantity" := "9223372036854775808"]> add_form) db1
    = (Redirect "inventory" danger (AddFailed OverflowError), db1) ∧
  add_product t0 (<["stock_quantity" := "9223372036854775808"]> name_only) db1
    = (Redirect "inventory" danger (AddFailed OverflowError), db1) ∧
  add_product t0 (delete "name" (<["stock_quantity" := "9223372036854775808"]> add_form)) db1
    = (Redirect "inventory" danger (AddFailed OverflowError), db1) ∧
  add_product t0 (<["selling_price" := "nan"]> add_form) db1
    = (Redirect "inventory" danger (AddFailed IntegrityError), db1) ∧
  edit_product t0 1 (<["selling_price" := "nan"]> edit_form) db1
    = (Redirect "inventory" danger (EditFailed IntegrityError), db1) ∧
  edit_product t0 7 edit_form db1
    = (Redirect "inventory" danger (EditFailed NotFound), db1) ∧
  edit_product t0 9223372036854775808 edit_form db1
    = (Redirect "inventory" danger (EditFailed OverflowError), db1).
Proof. evaluate. Qed.

(** [regle] added to [db1] under the id 3. *)
Lemma add_product_then_lookup_example :
  get_product_info (next_rowid (map_to_list (products db1)).*1)
                   (add_product t0 add_form db1).2
    = Jsonify (product_json (next_rowid (map_to_list (products db1)).*1) regle) ∧
  (next_rowid (map_to_list (products db1)).*1, regle)
    ∈ inventory (add_product t0 add_form db1).2 ∧
  ∀ j, is_Some (products db1 !! j) →
       get_product_info j (add_product t0 add_form db1).2 = get_product_info j db1.
Proof.
  apply (add_product_then_lookup t0 add_form db1 "regle" 3 0.5 1.25 0.5 1.25); evaluate.
Defined.

Example add_product_id : next_rowid (map_to_list (products db1)).*1 = 3%Z.
Proof. by vm_compute. Qed.

Lemma add_then_delete_example :
  delete_product (t0 + 1) (next_rowid (map_to_list (products db1)).*1)
                 (add_product t0 add_form db1).2
  = (Redirect "inventory" success (ProductDeleted "regle"), db1).
Proof.
  apply (add_then_delete_restores t0 (t0 + 1) add_form db1 "regle" 3 0.5 1.25 0.5 1.25);
    [|evaluate..].
  intros sale ->%db1_sale. exists (Product.mk "stylo" 6 2 3.5). by vm_compute.
Defined.

(** [stylo] edited in [db1]. *)
Lemma edit_product_then_lookup_example :
  get_product_info 1 (edit_product (t0 + 1) 1 edit_form db1).2
    = Jsonify (product_json 1 (Product.mk "stylo" 6 2 5)) ∧
  ∀ j, j ≠ 1%Z →
       get_product_info j (edit_product (t0 + 1) 1 edit_form db1).2
       = get_product_info j db1.
Proof.
  apply (edit_product_then_lookup (t0 + 1) 1 edit_form db1 (Product.mk "stylo" 6 2 3.5)
           "stylo" 6 2 5 2 5); evaluate.
Defined.

(** [cahier], which has no sale, deleted from [db1]. *)
Lemma delete_product_then_lookup_example :
  get_product_info 2 (delete_product (t0 + 1) 2 db1).2
    = Abort (if decide (sqlite_integer 2) then 404 else 500) ∧
  delete_product (t0 + 2) 2 (delete_product (t0 + 1) 2 db1).2
    = (Redirect "inventory" danger
         (DeleteFailed (if decide (sqlite_integer 2) then NotFound else OverflowError)),
       (delete_product (t0 + 1) 2 db1).2) ∧
  ∀ j, j ≠ 2%Z →
       get_product_info j (delete_product (t0 + 1) 2 db1).2 = get_product_info j db1.
Proof.
  apply (delete_product_then_lookup (t0 + 1) (t0 + 2) 2 db1 cahier); [by vm_compute|].
  by intros sale ->%db1_sale.
Defined.

(** Four of the ten [stylo]: six in stock and four sold. *)
Lemma process_sale_conserves_units_example :
  ∃ product',
    products (process_sale t0 (sale_form "1" "4") db0).2 !! 1%Z = Some product' ∧
    (Product.stock_quantity product'
     + units_sold (process_sale t0 (sale_form "1" "4") db0).2 1
     = Product.stock_quantity stylo + units_sold db0 1)%Z.
Proof.
  apply (process_sale_conserves_units t0 (sale_form "1" "4") db0 1 stylo). by vm_compute.
Defined.

Example delete_product_then_lookup_value :
  get_product_info 2 (delete_product (t0 + 1) 2 db1).2 = Abort 404 ∧
  delete_product (t0 + 2) 2 (delete_product (t0 + 1) 2 db1).2
    = (Redirect "inventory" danger (DeleteFailed NotFound),
       mkStore {[ 1%Z := Product.mk "stylo" 6 2 3.5 ]} [Sale.mk 1 1 4 t0 6]).
Proof. evaluate. Qed.

Example units_after_sale :
  units_sold db0 1 = 0%Z ∧ units_sold db1 1 = 4%Z ∧
  Product.stock_quantity <$> products db1 !! 1%Z = Some 6%Z.
Proof. by vm_compute. Qed.

(** Four [stylo], then two more or seven more. *)
Lemma process_sale_twice_example :
  (∀ profit2,
   (2 ≤ Product.stock_quantity stylo - 4)%Z →
   sale_storable (sold stylo 4) 2 profit2 →
   ∃ product',
     products (process_sale (t0 + 1) (sale_form "1" "2") db1).2 !! 1%Z = Some product' ∧
     Product.stock_quantity product' = (Product.stock_quantity stylo - 4 - 2)%Z ∧
     length (sales (process_sale (t0 + 1) (sale_form "1" "2") db1).2)
     = S (S (length (sales db0)))) ∧
  ((Product.stock_quantity stylo - 4 < 2)%Z →
   process_sale (t0 + 1) (sale_form "1" "2") db1
   = (Redirect "sale_page" danger (InsufficientStock (Product.stock_quantity stylo - 4)),
      db1)).
Proof.
  apply (process_sale_twice t0 (t0 + 1) (sale_form "1" "4") (sale_form "1" "2") db0
           "1" "4" "1" "2" 1 4 2 stylo 6); evaluate.
Defined.

Example process_sale_second_accepted :
  sale_storable (sold stylo 4) 2 3 ∧
  process_sale (t0 + 1) (sale_form "1" "2") db1
  = (Redirect "sale_page" success (SaleRecorded 2 "stylo" 3),
     mkStore {[ 1%Z := Product.mk "stylo" 4 2 3.5; 2%Z := cahier ]}
             [Sale.mk 1 1 4 t0 6; Sale.mk 2 1 2 (t0 + 1) 3]).
Proof. evaluate. Qed.

Example process_sale_second_refused :
  process_sale (t0 + 1) (sale_form "1" "7") db1
  = (Redirect "sale_page" danger (InsufficientStock 6), db1).
Proof. by vm_compute. Qed.

(** The ten [stylo] sold at once. *)
Lemma sold_out_example :
  (1%Z ∈ (sale_page (process_sale t0 (sale_form "1" "10") db0).2).*1 ↔
   (10 < Product.stock_quantity stylo)%Z) ∧
  1%Z ∈ (inventory (process_sale t0 (sale_form "1" "10") db0).2).*1.
Proof.
  apply (sold_out_leaves_sale_page t0 (sale_form "1" "10") db0 "1" "10" 1 10 stylo 15);
    evaluate.
Defined.

Example sale_page_after_sold_out :
  (sale_page db0).*1 = [1%Z] ∧
  (sale_page (process_sale t0 (sale_form "1" "10") db0).2).*1 = [].
Proof. by vm_compute. Qed.

(** Two more [stylo], five microseconds after the first sale. *)
Lemma recent_sales_head_example :
  head (recent_sales (process_sale (t0 + 5) (sale_form "1" "2") db1).2)
  = Some (Sale.mk (next_rowid (Sale.id <$> sales db1)) 1 2 (t0 + 5) 3).
Proof.
  apply (recent_sales_head_after_sale (t0 + 5) (sale_form "1" "2") db1 "1" "2" 1 2
           (Product.mk "stylo" 6 2 3.5) 3); [evaluate..|].
  intros sale ->%db1_sale. by vm_compute.
Defined.

Example recent_sales_after_two :
  recent_sales (process_sale (t0 + 5) (sale_form "1" "2") db1).2
  = [Sale.mk 2 1 2 (t0 + 5) 3; Sale.mk 1 1 4 t0 6].
Proof. by vm_compute. Qed.

Lemma sale_dates_follow_clock_example :
  StronglySorted Z.le (Sale.sale_date <$> sales (run two_sales (init_db (F:=float)))) ∧
  ∀ sale, sale ∈ sales (run two_sales (init_db (F:=float))) →
          Sale.sale_date sale ∈ two_sales.*1.
Proof.
  apply (sale_dates_follow_clock two_sales). cbn.
  repeat constructor; vm_compute; discriminate.
Defined.

Example two_sales_store :
  run two_sales (init_db (F:=float))
  = mkStore {[ 1%Z := Product.mk "stylo" 4 2 3.5 ]}
            [Sale.mk 1 1 4 t0 6; Sale.mk 2 1 2 (t0 + 1000000) 3].
Proof. by vm_compute. Qed.

End CoverageEvaluation.
